(** * Trace resolution server of kelemetry: pkg/frontend/http/trace/server.go

    A shallow embedding of [handleTrace], [findTrace] and [pruneTrace] and of
    the parts of their collaborators they rely on, followed by the properties
    of the trace resolution pipeline. *)

From Stdlib Require Import ZArith NArith Lia String Ascii List Bool.
From Stdlib Require DecimalString.
From stdpp Require Import base option list functions gmap strings.

Local Open Scope string_scope.

(* ================================================================== *)
(** * Go strings: bytes, [strings.ToLower] and [strings.EqualFold]     *)
(* ================================================================== *)

(** A Go string is a sequence of bytes; [string] over the 8-bit [ascii] is
    exactly that.  Both functions of package [strings] used by the server
    have an ASCII path, written out here, and a Unicode path that consults
    the Unicode case tables.  The Unicode path is a parameter. *)

Module GoStrings.

Definition byte_val (c : ascii) : N := N_of_ascii c.

(** utf8.RuneSelf: bytes below it are single-byte runes. *)
Definition RuneSelf : N := 0x80.

(** ['A' <= c && c <= 'Z'] *)
Definition isUpperASCII (c : ascii) : bool :=
  ((byte_val "A" <=? byte_val c) && (byte_val c <=? byte_val "Z"))%N.

(** [c += 'a' - 'A'] on a byte. *)
Definition addCaseOffset (c : ascii) : ascii :=
  ascii_of_N ((byte_val c + (byte_val "a" - byte_val "A")) mod 256)%N.

Section Unicode.

(** [strings.Map(unicode.ToLower, s)], reached only when [s] has a byte
    at or above [RuneSelf]. *)
Variable Map_unicode_ToLower : string -> string.

(** The [hasUnicode:] part of [strings.EqualFold], run on the suffixes
    that start at the first position where either byte is at or above
    [RuneSelf]. *)
Variable EqualFold_hasUnicode : string -> string -> bool.

(** The first loop of [ToLower]: [isASCII] and [hasUpper], with the
    [break] at the first non-ASCII byte. *)
Fixpoint ToLower_scan (s : string) (hasUpper : bool) : bool * bool :=
  match s with
  | EmptyString => (true, hasUpper)
  | String c s' =>
      if (RuneSelf <=? byte_val c)%N then (false, hasUpper)
      else ToLower_scan s' (hasUpper || isUpperASCII c)
  end.

(** The second loop of [ToLower], on an ASCII-only string. *)
Fixpoint ToLower_ascii (s : string) : string :=
  match s with
  | EmptyString => EmptyString
  | String c s' =>
      String (if isUpperASCII c then addCaseOffset c else c) (ToLower_ascii s')
  end.

Definition ToLower (s : string) : string :=
  let '(isASCII, hasUpper) := ToLower_scan s false in
  if isASCII then
    if negb hasUpper then s else ToLower_ascii s
  else Map_unicode_ToLower s.

(** [EqualFold]: the ASCII fast path walks both strings in step. *)
Fixpoint EqualFold (s t : string) : bool :=
  match s, t with
  | String sr s', String tr t' =>
      if (RuneSelf <=? N.lor (byte_val sr) (byte_val tr))%N then
        EqualFold_hasUnicode s t
      else if (byte_val tr =? byte_val sr)%N then EqualFold s' t'
      else
        let '(sr, tr) :=
          if (byte_val tr <? byte_val sr)%N then (tr, sr) else (sr, tr) in
        if isUpperASCII sr
           && (byte_val tr =? byte_val (addCaseOffset sr))%N
        then EqualFold s' t'
        else false
  | EmptyString, EmptyString => true
  | _, _ => false
  end.

End Unicode.

(** Every byte is below [RuneSelf]. *)
Fixpoint isASCII (s : string) : bool :=
  match s with
  | EmptyString => true
  | String c s' => (byte_val c <? RuneSelf)%N && isASCII s'
  end.



End GoStrings.

(* ================================================================== *)
(** * Go time: instants, [Truncate] and [Add]                          *)
(* ================================================================== *)

Module GoTime.

Local Open Scope Z_scope.

(** A [time.Time] is taken as its instant: nanoseconds since the zero time
    (January 1, year 1, 00:00:00 UTC).  The location a parsed time carries
    enters neither [Truncate] nor [Add] nor the comparison of instants.
    The functions below follow the documentation of package [time]; on the
    instants a parser can return none of them overflows. *)
Definition Time : Type := Z.

(** A [time.Duration] is a count of nanoseconds. *)
Definition Duration : Type := Z.

Definition Nanosecond : Duration := 1.
Definition Microsecond : Duration := 1000 * Nanosecond.
Definition Millisecond : Duration := 1000 * Microsecond.
Definition Second : Duration := 1000 * Millisecond.
Definition Minute : Duration := 60 * Second.

(** [t.Truncate(d)]: the result of rounding [t] down to a multiple of [d]
    since the zero time; [t] itself when [d <= 0].  It works on the
    absolute time, not on its presentation in a time zone. *)
Definition Truncate (t : Time) (d : Duration) : Time :=
  if d <=? 0 then t else t - t mod d.

(** [t.Add(d)] *)
Definition Add (t : Time) (d : Duration) : Time := t + d.

(** [t.Sub(u)] *)
Definition Sub (t u : Time) : Duration := t - u.

End GoTime.

(* ================================================================== *)
(** * The jaeger model: key-values, logs, spans, traces                *)
(* ================================================================== *)

Module model.

Record KeyValue := mkKeyValue { Key : string; VStr : string }.

Record Log := mkLog { Timestamp : GoTime.Time; Fields : list KeyValue }.

Record TraceID := mkTraceID { High : Z; Low : Z }.

Record Span := mkSpan {
  Span_TraceID : TraceID;
  OperationName : string;
  Logs : list Log
}.

(** A [*Span] is an address in the heap of span objects. *)
Abbreviation SpanPtr := nat.

(** [Trace.Spans] is a [[]*Span]: a list of pointers into the heap. *)
Record Trace := mkTrace { Spans : list SpanPtr }.

(** [KeyValues.FindByKey]: the first entry with the key, and whether there
    is one. *)
Fixpoint FindByKey (kvs : list KeyValue) (key : string) : KeyValue * bool :=
  match kvs with
  | [] => (mkKeyValue "" "", false)
  | kv :: kvs' => if String.eqb (Key kv) key then (kv, true) else FindByKey kvs' key
  end.

End model.

Import model.

#[global] Instance KeyValue_eq_dec : EqDecision KeyValue.
Proof. solve_decision. Defined.
#[global] Instance Log_eq_dec : EqDecision Log.
Proof. solve_decision. Defined.
#[global] Instance TraceID_eq_dec : EqDecision TraceID.
Proof. solve_decision. Defined.
#[global] Instance Span_eq_dec : EqDecision Span.
Proof. solve_decision. Defined.

(** The heap of span objects.  A [*model.Span] is an address; two entries
    of [Trace.Spans], or of two traces, may be the same address.  Every
    address holds a span: the traces a reader hands out have no nil span. *)
Definition Heap : Type := SpanPtr -> Span.

(** [span.Logs = newLogs] *)
Definition set_Logs (s : Span) (newLogs : list Log) : Span :=
  {| Span_TraceID := Span_TraceID s;
     OperationName := OperationName s;
     Logs := newLogs |}.

(** What a reader of the trace sees: its spans, in order. *)
Definition snapshot (h : Heap) (trace : Trace) : list Span :=
  map h (Spans trace).

(* ================================================================== *)
(** * pruneTrace                                                       *)
(* ================================================================== *)

(** The inner loop: [newLogs] after ranging over [span.Logs]. *)
Definition pruneTrace_newLogs (logs : list Log) (spanType : string) : list Log :=
  fold_left
    (fun newLogs log =>
       let '(_, ok) := FindByKey (Fields log) spanType in
       if ok then (newLogs ++ [log])%list else newLogs)
    logs [].

(** [pruneTrace(trace, spanType)]: its effect on the heap. *)
Definition pruneTrace (trace : Trace) (spanType : string) (h : Heap) : Heap :=
  if (String.length spanType =? 0)%nat then h
  else
    fold_left
      (fun h span =>
         let newLogs := pruneTrace_newLogs (Logs (h span)) spanType in
         <[span := set_Logs (h span) newLogs]> h)
      (Spans trace) h.

(** The tag mapping of a log contains the key. *)
Definition log_has_key (key : string) (log : Log) : Prop :=
  Exists (fun kv => Key kv = key) (Fields log).

#[global] Instance log_has_key_dec key log : Decision (log_has_key key log).
Proof. unfold log_has_key. apply _. Defined.

(* ================================================================== *)
(** * Contexts, errors and the collaborators of the server             *)
(* ================================================================== *)

Module context.

(** A [context.Context]: the background context, which is never cancelled
    and has no deadline, or the context of an incoming request with its
    cancellation state and deadline. *)
Inductive Context :=
| Background
| Request (cancelled : bool) (deadline : option GoTime.Time).

(** [ctx.Err() != nil] *)
Definition Done (ctx : Context) : bool :=
  match ctx with
  | Background => false
  | Request cancelled _ => cancelled
  end.

End context.

(** Go errors: an error value of a collaborator, or one built by
    [fmt.Errorf] from a format and its arguments. *)
Inductive error :=
| collaborator_error (msg : string)
| fmt_Errorf (format : string) (args : list fmt_arg)
with fmt_arg :=
| arg_string (s : string)
| arg_int (n : Z)
| arg_error (e : error).

Module metrics.

(** [metrics.LabeledError]: the label of the failure category. *)
Definition LabeledError : Type := string.
Definition MakeLabeledError (label : string) : LabeledError := label.

End metrics.

Module spanstore.

Record TraceQueryParameters := mkTraceQueryParameters {
  ServiceName : string;
  OperationName : string;
  Tags : gmap string string;
  StartTimeMin : GoTime.Time;
  StartTimeMax : GoTime.Time;
  DurationMin : GoTime.Duration;
  DurationMax : GoTime.Duration;
  NumTraces : Z
}.

End spanstore.

Import spanstore.

(** A call the span reader observes. *)
Inductive StoreCall :=
| Call_FindTraces (ctx : context.Context) (query : TraceQueryParameters)
| Call_GetTrace (ctx : context.Context) (traceID : TraceID).

(** The query parameters bound from the request. *)
Record traceQuery := mkTraceQuery {
  Cluster : string;
  Resource : string;
  Namespace : string;
  Name : string;
  Ts : string;
  SpanType : string
}.

(** What the handler uses of a [*gin.Context]: the outcome of [BindQuery]
    and the context of the request. *)
Record GinContext := mkGinContext {
  BindQuery : error + traceQuery;
  Request_Context : context.Context
}.

(** time.RFC3339 *)
Definition time_RFC3339 : string := "2006-01-02T15:04:05Z07:00".

(** The service name [handleTrace] hands to [findTrace]. *)
Definition tracing_exclusive : string := "tracing (exclusive)".

Section Server.

(** The Unicode paths of package [strings]. *)
Variable Map_unicode_ToLower : string -> string.
Variable EqualFold_hasUnicode : string -> string -> bool.

(** [time.Parse(layout, value)] *)
Variable time_Parse : string -> string -> error + GoTime.Time.

(** The state of the span store behind the reader. *)
Variable Backend : Type.

(** [jaegerreader.Interface]: the two methods the server calls.  A call
    may depend on and change the state of the store, and may allocate or
    change span objects. The pointers it returns are not nil. *)
Record Reader := mkReader {
  FindTraces : context.Context -> TraceQueryParameters ->
               Backend -> Heap -> (error + list Trace) * Backend * Heap;
  GetTrace : context.Context -> TraceID ->
             Backend -> Heap -> (error + Trace) * Backend * Heap
}.

(** [clusterlist.Lister] *)
Record Lister := mkLister { List : list string }.

(** The fields of [server] the request path uses. *)
Record server := mkServer {
  spanReader : Reader;
  clusterList : Lister
}.

(** Everything a request can read or change. *)
Record World := mkWorld {
  heap : Heap;
  backend : Backend;
  (** the calls the span reader has observed, oldest first *)
  calls : list StoreCall;
  (** [metric.Error] of the request's [*requestMetric] *)
  metric_Error : option metrics.LabeledError;
  (** [ctx.JSON(code, uiconv.FromDomain(trace))]: the status and the
      spans of the trace that is rendered *)
  written : option (Z * list Span)
}.

(** A computation on the world that returns a value or panics ([None]). *)
Definition M (A : Type) : Type := World -> option A * World.

Definition ret {A} (a : A) : M A := fun w => (Some a, w).

Definition bind {A B} (m : M A) (k : A -> M B) : M B :=
  fun w =>
    match m w with
    | (Some a, w') => k a w'
    | (None, w') => (None, w')
    end.

(** A runtime panic: nil dereference or index out of range. *)
Definition panic {A} : M A := fun w => (None, w).

Notation "'let!' x ':=' m 'in' k" := (bind m (fun x => k))
  (at level 10, x pattern, m at level 100, k at level 200).
Notation "m ';;;' k" := (bind m (fun _ => k))
  (at level 100, k at level 200, right associativity).

(** The four ways a request changes the world. *)
Definition record_metric (e : metrics.LabeledError) (w : World) : World :=
  {| heap := heap w; backend := backend w; calls := calls w;
     metric_Error := Some e; written := written w |}.

Definition record_heap (h : Heap) (w : World) : World :=
  {| heap := h; backend := backend w; calls := calls w;
     metric_Error := metric_Error w; written := written w |}.

Definition record_written (code : Z) (body : list Span) (w : World) : World :=
  {| heap := heap w; backend := backend w; calls := calls w;
     metric_Error := metric_Error w; written := Some (code, body) |}.

Definition record_call (c : StoreCall) (b : Backend) (h : Heap) (w : World)
    : World :=
  {| heap := h; backend := b; calls := (calls w ++ [c])%list;
     metric_Error := metric_Error w; written := written w |}.

(** [metric.Error = e] *)
Definition set_metric_Error (e : metrics.LabeledError) : M unit :=
  fun w => (Some tt, record_metric e w).

Definition get_heap : M Heap := fun w => (Some (heap w), w).

Definition update_heap (f : Heap -> Heap) : M unit :=
  fun w => (Some tt, record_heap (f (heap w)) w).

(** [ctx.JSON(code, body)] *)
Definition ctx_JSON (code : Z) (body : list Span) : M unit :=
  fun w => (Some tt, record_written code body w).

(** [server.spanReader.FindTraces(ctx, parameters)] *)
Definition call_FindTraces (srv : server) (ctx : context.Context)
    (parameters : TraceQueryParameters) : M (error + list Trace) :=
  fun w =>
    let '(r, b, h) :=
      FindTraces (spanReader srv) ctx parameters (backend w) (heap w) in
    (Some r, record_call (Call_FindTraces ctx parameters) b h w).

(** [server.spanReader.GetTrace(ctx, traceID)] *)
Definition call_GetTrace (srv : server) (ctx : context.Context)
    (traceID : TraceID) : M (error + Trace) :=
  fun w =>
    let '(r, b, h) :=
      GetTrace (spanReader srv) ctx traceID (backend w) (heap w) in
    (Some r, record_call (Call_GetTrace ctx traceID) b h w).

(** The comparison of [findTrace]:
    [strings.EqualFold(strings.ToLower(knownCluster), strings.ToLower(cluster))] *)
Definition cluster_matches (knownCluster cluster : string) : bool :=
  GoStrings.EqualFold EqualFold_hasUnicode
    (GoStrings.ToLower Map_unicode_ToLower knownCluster)
    (GoStrings.ToLower Map_unicode_ToLower cluster).

(** The loop of [findTrace] over [server.clusterList.List()]. *)
Definition findTrace_hasCluster (srv : server) (cluster : string) : bool :=
  fold_left
    (fun hasCluster knownCluster =>
       if cluster_matches knownCluster cluster then true else hasCluster)
    (List (clusterList srv)) false.

(** The [tags] map of [findTrace]. *)
Definition findTrace_tags (resource name namespace : string)
    : gmap string string :=
  let tags := <["name" := name]> (<["resource" := resource]> ∅) in
  if negb (String.eqb namespace "") then <["namespace" := namespace]> tags
  else tags.

(** The [parameters] of [findTrace]. *)
Definition findTrace_parameters (serviceName : string) (cluster : string)
    (tags : gmap string string) (timestamp : GoTime.Time)
    : TraceQueryParameters :=
  {| ServiceName := serviceName;
     OperationName := cluster;
     Tags := tags;
     StartTimeMin := GoTime.Truncate timestamp (GoTime.Minute * 30)%Z;
     StartTimeMax :=
       GoTime.Add (GoTime.Truncate timestamp (GoTime.Minute * 30)%Z)
                  (GoTime.Minute * 30)%Z;
     DurationMin := 0%Z;
     DurationMax := 0%Z;
     NumTraces := 0%Z |}.

(** The first test of [findTrace]:
    [len(cluster) == 0 || len(resource) == 0 || len(name) == 0] *)
Definition findTrace_emptyParam (query : traceQuery) : bool :=
  (String.length (Cluster query) =? 0)%nat
  || (String.length (Resource query) =? 0)%nat
  || (String.length (Name query) =? 0)%nat.

Definition findTrace (srv : server) (serviceName : string)
    (query : traceQuery) : M (option Trace * Z * option error) :=
  let cluster := Cluster query in
  let resource := Resource query in
  let namespace := Namespace query in
  let name := Name query in
  if findTrace_emptyParam query then
    set_metric_Error (metrics.MakeLabeledError "EmptyParam") ;;;
    ret (None, 400%Z,
         Some (fmt_Errorf "cluster or resource or name is empty" []))
  else
    let hasCluster := findTrace_hasCluster srv cluster in
    if negb hasCluster then
      set_metric_Error (metrics.MakeLabeledError "UnknownCluster") ;;;
      ret (None, 404%Z,
           Some (fmt_Errorf "cluster %s not supported now" [arg_string cluster]))
    else
      match time_Parse time_RFC3339 (Ts query) with
      | inl err =>
          set_metric_Error (metrics.MakeLabeledError "InvalidTimestamp") ;;;
          ret (None, 400%Z,
               Some (fmt_Errorf "invalid timestamp for ts param %w" [arg_error err]))
      | inr timestamp =>
          let tags := findTrace_tags resource name namespace in
          let parameters :=
            findTrace_parameters serviceName cluster tags timestamp in
          let! r := call_FindTraces srv context.Background parameters in
          match r with
          | inl err =>
              set_metric_Error (metrics.MakeLabeledError "TraceError") ;;;
              ret (None, 500%Z,
                   Some (fmt_Errorf "failed to find trace ids %w" [arg_error err]))
          | inr traces =>
              if (1 <? length traces)%nat then
                set_metric_Error (metrics.MakeLabeledError "MultiTraceMatch") ;;;
                ret (None, 500%Z,
                     Some (fmt_Errorf "trace ids match query length is %d, not 1"
                             [arg_int (Z.of_nat (length traces))]))
              else if (length traces =? 0)%nat then
                set_metric_Error (metrics.MakeLabeledError "NoTraceMatch") ;;;
                ret (None, 404%Z,
                     Some (fmt_Errorf "could not find trace ids that match query" []))
              else
                match traces with
                | trace :: _ => ret (Some trace, 200%Z, None)
                | [] => panic
                end
          end
      end.

(** The loop of [handleTrace] that sets [hasLogs]. *)
Definition handleTrace_hasLogs (h : Heap) (trace : Trace) : bool :=
  fold_left
    (fun hasLogs span =>
       if (0 <? length (Logs (h span)))%nat then true else hasLogs)
    (Spans trace) false.

(** The test of [handleTrace] that guards the fetch by trace ID:
    [!hasLogs && len(trace.Spans) > 0] *)
Definition handleTrace_refetch (h : Heap) (trace : Trace) : bool :=
  let hasLogs := handleTrace_hasLogs h trace in
  negb hasLogs && (0 <? length (Spans trace))%nat.

(** The end of [handleTrace]: prune, render, and return. *)
Definition handleTrace_finish (query : traceQuery) (trace : Trace)
    : M (Z * option error) :=
  update_heap (pruneTrace trace (SpanType query)) ;;;
  let! h := get_heap in
  ctx_JSON 200 (snapshot h trace) ;;;
  ret (0%Z, None).

Definition handleTrace (srv : server) (ctx : GinContext)
    : M (Z * option error) :=
  match BindQuery ctx with
  | inl err =>
      set_metric_Error (metrics.MakeLabeledError "InvalidParam") ;;;
      ret (400%Z, Some (fmt_Errorf "invalid param %w" [arg_error err]))
  | inr query =>
      let! (trace, code, err) := findTrace srv tracing_exclusive query in
      match err with
      | Some err => ret (code, Some err)
      | None =>
          match trace with
          | None => panic
          | Some trace =>
              let! h := get_heap in
              if handleTrace_refetch h trace then
                match Spans trace with
                | [] => panic
                | span0 :: _ =>
                    let! r := call_GetTrace srv context.Background
                                (Span_TraceID (h span0)) in
                    match r with
                    | inl err =>
                        set_metric_Error (metrics.MakeLabeledError "TraceError") ;;;
                        ret (500%Z,
                             Some (fmt_Errorf "failed to find trace ids %w"
                                     [arg_error err]))
                    | inr trace => handleTrace_finish query trace
                    end
                end
              else handleTrace_finish query trace
          end
      end
  end.

(** The world a request starts in: nothing called, nothing written, the
    metric of the request fresh. *)
Definition initial (h : Heap) (b : Backend) : World :=
  {| heap := h; backend := b; calls := [];
     metric_Error := None; written := None |}.

End Server.

Arguments mkReader {Backend} _ _.
Arguments FindTraces {Backend} _ _ _ _ _.
Arguments GetTrace {Backend} _ _ _ _ _.
Arguments mkServer {Backend} _ _.
Arguments spanReader {Backend} _.
Arguments clusterList {Backend} _.
Arguments mkWorld {Backend} _ _ _ _ _.
Arguments heap {Backend} _.
Arguments backend {Backend} _.
Arguments calls {Backend} _.
Arguments metric_Error {Backend} _.
Arguments written {Backend} _.
Arguments M Backend A : clear implicits.
Arguments ret {Backend A} _ _.
Arguments bind {Backend A B} _ _ _.
Arguments panic {Backend A} _.
Arguments record_metric {Backend} _ _.
Arguments record_heap {Backend} _ _.
Arguments record_written {Backend} _ _ _.
Arguments record_call {Backend} _ _ _ _.
Arguments set_metric_Error {Backend} _ _.
Arguments get_heap {Backend} _.
Arguments update_heap {Backend} _ _.
Arguments ctx_JSON {Backend} _ _ _.
Arguments call_FindTraces {Backend} _ _ _ _.
Arguments call_GetTrace {Backend} _ _ _ _.
Arguments findTrace_hasCluster _ _ {Backend} _ _.
Arguments findTrace_emptyParam _ : assert.
Arguments findTrace _ _ _ {Backend} _ _ _ _.
Arguments handleTrace_finish {Backend} _ _ _.
Arguments handleTrace _ _ _ {Backend} _ _ _.
Arguments initial {Backend} _ _.

(* ================================================================== *)
(** * Request outcomes                                                 *)
(* ================================================================== *)

(** The outcome of a request as the design names it. *)
Inductive RequestOutcome :=
| Success (trace : list Span)
| ValidationFailure
| UnknownCluster
| NoMatch
| AmbiguousMatch
| StoreFailure.

(** The status class of a transport status code. *)
Inductive StatusClass := ClientError | NotFound | ServerError.

Definition status_class (code : Z) : option StatusClass :=
  if (code =? 400)%Z then Some ClientError
  else if (code =? 404)%Z then Some NotFound
  else if (code =? 500)%Z then Some ServerError
  else None.

(** The failure category recorded in the metric, as an outcome. *)
Definition outcome_of_label (label : metrics.LabeledError) : option RequestOutcome :=
  if String.eqb label "InvalidParam" then Some ValidationFailure
  else if String.eqb label "EmptyParam" then Some ValidationFailure
  else if String.eqb label "InvalidTimestamp" then Some ValidationFailure
  else if String.eqb label "UnknownCluster" then Some UnknownCluster
  else if String.eqb label "NoTraceMatch" then Some NoMatch
  else if String.eqb label "MultiTraceMatch" then Some AmbiguousMatch
  else if String.eqb label "TraceError" then Some StoreFailure
  else None.

Section Resolve.

Context {Backend : Type}.
Variable Map_unicode_ToLower : string -> string.
Variable EqualFold_hasUnicode : string -> string -> bool.
Variable time_Parse : string -> string -> error + GoTime.Time.

(** One request, from a fresh world to the return of [handleTrace]. *)
Definition resolve (srv : server Backend) (ctx : GinContext)
    (h : Heap) (b : Backend)
    : option (Z * option error) * World Backend :=
  handleTrace Map_unicode_ToLower EqualFold_hasUnicode time_Parse
    srv ctx (initial h b).

(** The outcome of a finished request: [Success] with what was written
    when [handleTrace] returned a nil error, and otherwise the category
    the metric records. [None] after a panic. *)
Definition outcome (res : option (Z * option error) * World Backend)
    : option RequestOutcome :=
  match res with
  | (Some (_, None), w) =>
      match written w with
      | Some (_, body) => Some (Success body)
      | None => None
      end
  | (Some (_, Some _), w) =>
      match metric_Error w with
      | Some label => outcome_of_label label
      | None => None
      end
  | (None, _) => None
  end.

End Resolve.

(** The parameters of the tag query [findTrace] builds for a request whose
    timestamp parsed to [timestamp]. *)
Definition parameters_of (serviceName : string) (query : traceQuery)
    (timestamp : GoTime.Time) : TraceQueryParameters :=
  findTrace_parameters serviceName (Cluster query)
    (findTrace_tags (Resource query) (Name query) (Namespace query)) timestamp.

(** The paths of a request through [handleTrace], one constructor per
    [return] of [handleTrace] and [findTrace], each with what the request
    returns and the world it leaves. *)
Section Paths.

Context {Backend : Type}.
Variable Map_unicode_ToLower : string -> string.
Variable EqualFold_hasUnicode : string -> string -> bool.
Variable time_Parse : string -> string -> error + GoTime.Time.
Variable srv : server Backend.
Variable ctx : GinContext.
Variable h : Heap.
Variable b : Backend.

Let hasCluster := findTrace_hasCluster Map_unicode_ToLower EqualFold_hasUnicode srv.
Let find_call query timestamp :=
  Call_FindTraces context.Background (parameters_of tracing_exclusive query timestamp).
Let find query timestamp :=
  FindTraces (spanReader srv) context.Background
    (parameters_of tracing_exclusive query timestamp) b h.
Let after_find query timestamp b1 h1 :=
  record_call (find_call query timestamp) b1 h1 (initial h b).
Let fetch_call (h1 : Heap) (span0 : SpanPtr) :=
  Call_GetTrace context.Background (Span_TraceID (h1 span0)).
Let fetch b1 (h1 : Heap) (span0 : SpanPtr) :=
  GetTrace (spanReader srv) context.Background (Span_TraceID (h1 span0)) b1 h1.

Inductive Served : option (Z * option error) * World Backend -> Prop :=
| Served_InvalidParam err :
    BindQuery ctx = inl err ->
    Served (Some (400%Z, Some (fmt_Errorf "invalid param %w" [arg_error err])),
            record_metric "InvalidParam" (initial h b))
| Served_EmptyParam query :
    BindQuery ctx = inr query ->
    findTrace_emptyParam query = true ->
    Served (Some (400%Z,
                  Some (fmt_Errorf "cluster or resource or name is empty" [])),
            record_metric "EmptyParam" (initial h b))
| Served_UnknownCluster query :
    BindQuery ctx = inr query ->
    findTrace_emptyParam query = false ->
    hasCluster (Cluster query) = false ->
    Served (Some (404%Z,
                  Some (fmt_Errorf "cluster %s not supported now"
                          [arg_string (Cluster query)])),
            record_metric "UnknownCluster" (initial h b))
| Served_InvalidTimestamp query err :
    BindQuery ctx = inr query ->
    findTrace_emptyParam query = false ->
    hasCluster (Cluster query) = true ->
    time_Parse time_RFC3339 (Ts query) = inl err ->
    Served (Some (400%Z,
                  Some (fmt_Errorf "invalid timestamp for ts param %w"
                          [arg_error err])),
            record_metric "InvalidTimestamp" (initial h b))
| Served_FindError query timestamp err b1 h1 :
    BindQuery ctx = inr query ->
    findTrace_emptyParam query = false ->
    hasCluster (Cluster query) = true ->
    time_Parse time_RFC3339 (Ts query) = inr timestamp ->
    find query timestamp = (inl err, b1, h1) ->
    Served (Some (500%Z,
                  Some (fmt_Errorf "failed to find trace ids %w" [arg_error err])),
            record_metric "TraceError" (after_find query timestamp b1 h1))
| Served_MultiTraceMatch query timestamp traces b1 h1 :
    BindQuery ctx = inr query ->
    findTrace_emptyParam query = false ->
    hasCluster (Cluster query) = true ->
    time_Parse time_RFC3339 (Ts query) = inr timestamp ->
    find query timestamp = (inr traces, b1, h1) ->
    (1 < length traces)%nat ->
    Served (Some (500%Z,
                  Some (fmt_Errorf "trace ids match query length is %d, not 1"
                          [arg_int (Z.of_nat (length traces))])),
            record_metric "MultiTraceMatch" (after_find query timestamp b1 h1))
| Served_NoTraceMatch query timestamp b1 h1 :
    BindQuery ctx = inr query ->
    findTrace_emptyParam query = false ->
    hasCluster (Cluster query) = true ->
    time_Parse time_RFC3339 (Ts query) = inr timestamp ->
    find query timestamp = (inr [], b1, h1) ->
    Served (Some (404%Z,
                  Some (fmt_Errorf "could not find trace ids that match query" [])),
            record_metric "NoTraceMatch" (after_find query timestamp b1 h1))
| Served_Found query timestamp trace b1 h1 :
    BindQuery ctx = inr query ->
    findTrace_emptyParam query = false ->
    hasCluster (Cluster query) = true ->
    time_Parse time_RFC3339 (Ts query) = inr timestamp ->
    find query timestamp = (inr [trace], b1, h1) ->
    handleTrace_refetch h1 trace = false ->
    Served (handleTrace_finish query trace (after_find query timestamp b1 h1))
| Served_RefetchError query timestamp trace b1 h1 span0 rest err b2 h2 :
    BindQuery ctx = inr query ->
    findTrace_emptyParam query = false ->
    hasCluster (Cluster query) = true ->
    time_Parse time_RFC3339 (Ts query) = inr timestamp ->
    find query timestamp = (inr [trace], b1, h1) ->
    handleTrace_refetch h1 trace = true ->
    Spans trace = span0 :: rest ->
    fetch b1 h1 span0 = (inl err, b2, h2) ->
    Served (Some (500%Z,
                  Some (fmt_Errorf "failed to find trace ids %w" [arg_error err])),
            record_metric "TraceError"
              (record_call (fetch_call h1 span0) b2 h2
                 (after_find query timestamp b1 h1)))
| Served_Refetched query timestamp trace b1 h1 span0 rest trace' b2 h2 :
    BindQuery ctx = inr query ->
    findTrace_emptyParam query = false ->
    hasCluster (Cluster query) = true ->
    time_Parse time_RFC3339 (Ts query) = inr timestamp ->
    find query timestamp = (inr [trace], b1, h1) ->
    handleTrace_refetch h1 trace = true ->
    Spans trace = span0 :: rest ->
    fetch b1 h1 span0 = (inr trace', b2, h2) ->
    Served (handleTrace_finish query trace'
              (record_call (fetch_call h1 span0) b2 h2
                 (after_find query timestamp b1 h1))).

End Paths.

(** The window [findTrace] derives from a timestamp: [StartTimeMin] and
    [StartTimeMax] of its query parameters. *)
Definition bucket (timestamp : GoTime.Time) : GoTime.Time * GoTime.Time :=
  (GoTime.Truncate timestamp (GoTime.Minute * 30)%Z,
   GoTime.Add (GoTime.Truncate timestamp (GoTime.Minute * 30)%Z)
              (GoTime.Minute * 30)%Z).

(** What pruning with a non-empty category does to one span. *)
Definition prune_span (spanType : string) (s : Span) : Span :=
  set_Logs s (filter (log_has_key spanType) (Logs s)).

(** The context a store call was given. *)
Definition call_context (c : StoreCall) : context.Context :=
  match c with
  | Call_FindTraces ctx _ => ctx
  | Call_GetTrace ctx _ => ctx
  end.

Definition is_GetTrace (c : StoreCall) : bool :=
  match c with
  | Call_GetTrace _ _ => true
  | Call_FindTraces _ _ => false
  end.

(** The number of fetches by trace ID among the calls. *)
Definition count_GetTrace (cs : list StoreCall) : nat :=
  length (List.filter is_GetTrace cs).

(** The state the store and the heap are in after the store has served the
    calls in order: what a request leaves behind when the server itself
    changes no span. *)
Definition store_step {Backend} (rdr : Reader Backend)
    (st : Backend * Heap) (c : StoreCall) : Backend * Heap :=
  match c with
  | Call_FindTraces ctx p =>
      let '(_, b, h) := FindTraces rdr ctx p (fst st) (snd st) in (b, h)
  | Call_GetTrace ctx id =>
      let '(_, b, h) := GetTrace rdr ctx id (fst st) (snd st) in (b, h)
  end.

Definition store_replay {Backend} (rdr : Reader Backend)
    (cs : list StoreCall) (st : Backend * Heap) : Backend * Heap :=
  fold_left (store_step rdr) cs st.

(* ================================================================== *)
(** * A concrete server                                                *)
(* ================================================================== *)

(** An in-memory reader, registry and parser on which the properties below
    are exercised. *)
Module Fixture.

(** Only ASCII cluster names occur, the Unicode paths are never taken. *)
Definition Map_unicode_ToLower (s : string) : string := s.
Definition EqualFold_hasUnicode (s t : string) : bool := String.eqb s t.

(** 2023-01-01T10:05:00Z, in nanoseconds since the zero time. *)
Definition t_10_05 : GoTime.Time := (63808164300 * GoTime.Second)%Z.

(** A parser that knows one timestamp. *)
Definition time_Parse (layout value : string) : error + GoTime.Time :=
  if String.eqb layout time_RFC3339 && String.eqb value "2023-01-01T10:05:00Z"
  then inr t_10_05
  else inl (collaborator_error "parsing time: cannot parse").

Definition audit_log (ts : Z) : Log :=
  mkLog ts [mkKeyValue "k" "v"; mkKeyValue "audit" "update"].
Definition event_log (ts : Z) : Log :=
  mkLog ts [mkKeyValue "event" "Scheduled"].

(** Spans 0 and 1 carry logs; spans 2 and 3 belong to a shallow copy of
    the same trace and carry none; spans 10 and 11 are the full copy;
    span 20 belongs to another trace. *)
Definition h0 : Heap := fun p =>
  match p with
  | 0 => mkSpan (mkTraceID 0 7) "object"
           [audit_log 1; event_log 2; audit_log 3]
  | 1 => mkSpan (mkTraceID 0 7) "child" [event_log 4]
  | 2 => mkSpan (mkTraceID 0 8) "object" []
  | 3 => mkSpan (mkTraceID 0 8) "child" []
  | 10 => mkSpan (mkTraceID 0 8) "object" [event_log 5; audit_log 6]
  | 11 => mkSpan (mkTraceID 0 8) "child" [event_log 7]
  | 20 => mkSpan (mkTraceID 0 9) "other" [audit_log 8]
  | _ => mkSpan (mkTraceID 0 0) "" []
  end.

(** A trace in which one span object occurs twice. *)
Definition aliased : Trace := mkTrace [0; 1; 0].
Definition with_logs : Trace := mkTrace [0; 1].
Definition shallow : Trace := mkTrace [2; 3].
Definition full : Trace := mkTrace [10; 11].
Definition other : Trace := mkTrace [20].
Definition no_spans : Trace := mkTrace [].

(** A reader that answers the tag query with [found] and the fetch by ID
    with [fetched], and refuses to work for a cancelled context. *)
Definition reader (found : error + list Trace) (fetched : error + Trace)
    : Reader unit :=
  {| FindTraces := fun ctx _ b h =>
       if context.Done ctx
       then (inl (collaborator_error "context canceled"), b, h)
       else (found, b, h);
     GetTrace := fun ctx _ b h =>
       if context.Done ctx
       then (inl (collaborator_error "context canceled"), b, h)
       else (fetched, b, h) |}.

Definition srv (found : error + list Trace) (fetched : error + Trace)
    : server unit :=
  {| spanReader := reader found fetched;
     clusterList := {| List := ["staging"; "Prod"] |} |}.

Definition unavailable : error := collaborator_error "store unavailable".

(** cluster=prod, resource=pods, name=foo-123, ts=2023-01-01T10:05:00Z *)
Definition query (cluster resource namespace span_type : string) : traceQuery :=
  {| Cluster := cluster; Resource := resource; Namespace := namespace;
     Name := "foo-123"; Ts := "2023-01-01T10:05:00Z"; SpanType := span_type |}.

Definition request (q : traceQuery) (rc : context.Context) : GinContext :=
  {| BindQuery := inr q; Request_Context := rc |}.

Definition live : context.Context := context.Request false None.
Definition cancelled : context.Context := context.Request true None.

Definition run (found : error + list Trace) (fetched : error + Trace)
    (q : traceQuery) (rc : context.Context)
    : option (Z * option error) * World unit :=
  resolve Map_unicode_ToLower EqualFold_hasUnicode time_Parse
    (srv found fetched) (request q rc) h0 tt.

End Fixture.

(* ================================================================== *)
(** * The route handler registered by Init                             *)
(* ================================================================== *)

(** The same query with another [span_type]. *)
Definition with_SpanType (query : traceQuery) (spanType : string) : traceQuery :=
  {| Cluster := Cluster query; Resource := Resource query;
     Namespace := Namespace query; Name := Name query; Ts := Ts query;
     SpanType := spanType |}.

(** What the route handler uses of the incoming request besides what
    [handleTrace] uses: the remote address and the raw query string, which
    go to the log. *)
Record HttpRequest := mkHttpRequest {
  gin : GinContext;
  RemoteAddr : string;
  RawQuery : string
}.

(** A line of the request logger, which carries the field [source]. *)
Inductive LogEvent :=
| Log_Infof (source : string) (rawQuery : string)
| Log_Error (source : string) (err : error).

(** What the handler leaves behind: the world after [handleTrace], the
    status set on the response, the strings written to it by
    [ctx.Writer.WriteString], whether [ctx.Abort()] was called, the lines
    logged, the deferred [DeferCount(start, metric)] with the start time and
    the label the metric holds when the deferred call runs, and whether a
    panic reached the deferred [shutdown.RecoverPanic]. *)
Record Exchange (Backend : Type) := mkExchange {
  after : World Backend;
  Status : option Z;
  Text : list string;
  Aborted : bool;
  Logged : list LogEvent;
  Counted : list (GoTime.Time * option metrics.LabeledError);
  Panicked : bool
}.

Arguments mkExchange {Backend} _ _ _ _ _ _ _.
Arguments after {Backend} _.
Arguments Status {Backend} _.
Arguments Text {Backend} _.
Arguments Aborted {Backend} _.
Arguments Logged {Backend} _.
Arguments Counted {Backend} _.
Arguments Panicked {Backend} _.

Section Route.

Context {Backend : Type}.
Variable Map_unicode_ToLower : string -> string.
Variable EqualFold_hasUnicode : string -> string -> bool.
Variable time_Parse : string -> string -> error + GoTime.Time.

(** [err.Error()] *)
Variable error_Error : error -> string.

(** The function registered for GET /extensions/api/v1/trace.  [now] is
    [server.clock.Now()] at the [defer] statement.  [ctx.JSON] inside
    [handleTrace] sets the status it is given; [ctx.Status(code)] sets the
    status of a failed request. *)
Definition route (srv : server Backend) (now : GoTime.Time)
    (req : HttpRequest) (h : Heap) (b : Backend) : Exchange Backend :=
  let source := RemoteAddr req in
  let info := Log_Infof source (RawQuery req) in
  let '(r, w) :=
    resolve Map_unicode_ToLower EqualFold_hasUnicode time_Parse
      srv (gin req) h b in
  let counted := [(now, metric_Error w)] in
  match r with
  | Some (code, Some err) =>
      {| after := w;
         Status := Some code;
         Text := [error_Error err];
         Aborted := true;
         Logged := [info; Log_Error source err];
         Counted := counted;
         Panicked := false |}
  | Some (_, None) =>
      {| after := w;
         Status := fst <$> written w;
         Text := [];
         Aborted := false;
         Logged := [info];
         Counted := counted;
         Panicked := false |}
  | None =>
      {| after := w;
         Status := fst <$> written w;
         Text := [];
         Aborted := false;
         Logged := [info];
         Counted := counted;
         Panicked := true |}
  end.

End Route.

(** A concrete route: the server of [Fixture] behind the handler, with a
    rendering of error messages that covers the errors the server builds,
    whose formats hold at most one verb. *)
Module RouteFixture.

(** The format with its first verb replaced by the argument. *)
Fixpoint replace_verb (format arg : string) : string :=
  match format with
  | EmptyString => EmptyString
  | String "%" (String _ rest) => (arg ++ rest)%string
  | String c rest => String c (replace_verb rest arg)
  end.

Fixpoint error_Error (e : error) : string :=
  match e with
  | collaborator_error msg => msg
  | fmt_Errorf format [] => format
  | fmt_Errorf format (a :: _) =>
      replace_verb format
        match a with
        | arg_string s => s
        | arg_int n => DecimalString.NilZero.string_of_int (Z.to_int n)
        | arg_error e' => error_Error e'
        end
  end.

Definition request (q : traceQuery) : HttpRequest :=
  {| gin := Fixture.request q Fixture.live;
     RemoteAddr := "10.0.0.7:51324";
     RawQuery := "cluster=prod" |}.

Definition handle (found : error + list Trace) (fetched : error + Trace)
    (q : traceQuery) : Exchange unit :=
  route Fixture.Map_unicode_ToLower Fixture.EqualFold_hasUnicode
    Fixture.time_Parse error_Error (Fixture.srv found fetched)
    Fixture.t_10_05 (request q) Fixture.h0 tt.

End RouteFixture.

(* ================================================================== *)
(** * The model on the concrete server                                 *)
(* ================================================================== *)

Example ToLower_Prod :
  GoStrings.ToLower Fixture.Map_unicode_ToLower "Prod" = "prod".
Proof. reflexivity. Qed.

Example cluster_matches_PROD :
  cluster_matches Fixture.Map_unicode_ToLower Fixture.EqualFold_hasUnicode
    "Prod" "PROD" = true.
Proof. reflexivity. Qed.

Example cluster_matches_prof :
  cluster_matches Fixture.Map_unicode_ToLower Fixture.EqualFold_hasUnicode
    "Prod" "prof" = false.
Proof. reflexivity. Qed.

(** 10:05 falls in the window from 10:00 to 10:30. *)
Example bucket_10_05 :
  bucket Fixture.t_10_05
  = ((63808164000 * GoTime.Second)%Z, (63808165800 * GoTime.Second)%Z).
Proof. reflexivity. Qed.

(** Pruning a trace in which span 0 occurs twice. *)
Example prune_aliased :
  map Logs (snapshot (pruneTrace Fixture.aliased "audit" Fixture.h0)
              Fixture.aliased)
  = [[Fixture.audit_log 1; Fixture.audit_log 3]; [];
     [Fixture.audit_log 1; Fixture.audit_log 3]].
Proof. reflexivity. Qed.

(** One request for each way [handleTrace] can end. *)
Example run_InvalidParam :
  outcome
    (resolve Fixture.Map_unicode_ToLower Fixture.EqualFold_hasUnicode
       Fixture.time_Parse (Fixture.srv (inr []) (inl Fixture.unavailable))
       {| BindQuery := inl (collaborator_error "bad query");
          Request_Context := Fixture.live |} Fixture.h0 tt)
  = Some ValidationFailure.
Proof. reflexivity. Qed.

Example run_InvalidTimestamp :
  outcome
    (Fixture.run (inr [Fixture.with_logs]) (inl Fixture.unavailable)
       {| Cluster := "prod"; Resource := "pods"; Namespace := "";
          Name := "foo-123"; Ts := "yesterday"; SpanType := "" |}
       Fixture.live)
  = Some ValidationFailure.
Proof. reflexivity. Qed.

Example run_StoreFailure :
  outcome
    (Fixture.run (inl Fixture.unavailable) (inl Fixture.unavailable)
       (Fixture.query "prod" "pods" "" "") Fixture.live)
  = Some StoreFailure.
Proof. reflexivity. Qed.

Example run_NoMatch :
  outcome
    (Fixture.run (inr []) (inl Fixture.unavailable)
       (Fixture.query "prod" "pods" "" "") Fixture.live)
  = Some NoMatch.
Proof. reflexivity. Qed.

Example run_AmbiguousMatch :
  outcome
    (Fixture.run (inr [Fixture.with_logs; Fixture.other])
       (inl Fixture.unavailable)
       (Fixture.query "prod" "pods" "" "") Fixture.live)
  = Some AmbiguousMatch.
Proof. reflexivity. Qed.

(** A located trace without spans is rendered as it is, without a fetch. *)
Example run_no_spans :
  let res := Fixture.run (inr [Fixture.no_spans]) (inl Fixture.unavailable)
               (Fixture.query "prod" "pods" "" "audit") Fixture.live in
  outcome res = Some (Success []) /\ count_GetTrace (calls (snd res)) = 0%nat.
Proof. split; reflexivity. Qed.

(** The located trace has logs: it is pruned and rendered, and the empty
    category leaves every log in place. *)
Example run_Success :
  outcome
    (Fixture.run (inr [Fixture.with_logs]) (inl Fixture.unavailable)
       (Fixture.query "prod" "pods" "default" "") Fixture.live)
  = Some (Success [Fixture.h0 0; Fixture.h0 1]).
Proof. reflexivity. Qed.

(* ================================================================== *)
(** * Properties of pruneTrace                                         *)
(* ================================================================== *)

Lemma FindByKey_ok kvs key :
  snd (FindByKey kvs key) = true <-> Exists (fun kv => Key kv = key) kvs.
Proof.
  induction kvs as [|kv kvs IH]; simpl.
  - split; [discriminate | intros H; inversion H].
  - destruct (String.eqb_spec (Key kv) key) as [Heq|Hne]; simpl.
    + split; [intros _; by left | done].
    + rewrite IH. split; [by right|].
      intros H. inversion H; subst; [done | assumption].
Qed.

(** The inner loop keeps, in order, the logs that carry the key. *)
Lemma pruneTrace_newLogs_filter logs spanType :
  pruneTrace_newLogs logs spanType = filter (log_has_key spanType) logs.
Proof.
  unfold pruneTrace_newLogs.
  enough (forall acc,
    fold_left
      (fun newLogs log =>
         let '(_, ok) := FindByKey (Fields log) spanType in
         if ok then (newLogs ++ [log])%list else newLogs) logs acc
    = (acc ++ filter (log_has_key spanType) logs)%list) as H by apply (H []).
  induction logs as [|log logs IH]; intros acc; simpl.
  - by rewrite app_nil_r.
  - rewrite IH.
    pose proof (FindByKey_ok (Fields log) spanType) as Hok.
    destruct (FindByKey (Fields log) spanType) as [kv ok]; simpl in Hok.
    destruct ok.
    + rewrite filter_cons_True by (by apply Hok).
      by rewrite <- app_assoc.
    + rewrite filter_cons_False; [done|].
      intros Hk. apply Hok in Hk. discriminate.
Qed.

Lemma prune_span_idemp spanType s :
  prune_span spanType (prune_span spanType s) = prune_span spanType s.
Proof.
  unfold prune_span, set_Logs; simpl. f_equal.
  rewrite list_filter_filter. apply list_filter_iff. tauto.
Qed.

(** The outer loop, with the same span pointer possibly met again. *)
Lemma pruneTrace_loop spanType (spans : list SpanPtr) (h : Heap) (p : SpanPtr) :
  fold_left
    (fun h span =>
       let newLogs := pruneTrace_newLogs (Logs (h span)) spanType in
       <[span := set_Logs (h span) newLogs]> h) spans h p
  = if decide (p ∈ spans) then prune_span spanType (h p) else h p.
Proof.
  revert h. induction spans as [|a spans IH]; intros h; cbn [fold_left].
  - rewrite decide_False; [done | apply not_elem_of_nil].
  - rewrite IH. rewrite pruneTrace_newLogs_filter.
    fold (prune_span spanType (h a)).
    destruct (decide (p = a)) as [->|Hne].
    + rewrite fn_lookup_insert, prune_span_idemp.
      rewrite (decide_True (P := a ∈ a :: spans)) by apply list_elem_of_here.
      by case_decide.
    + rewrite fn_lookup_insert_ne by done.
      destruct (decide (p ∈ spans)) as [Hin|Hnin],
               (decide (p ∈ a :: spans)) as [Hin'|Hnin']; try done.
      * exfalso. apply Hnin'. by apply list_elem_of_further.
      * exfalso. apply elem_of_cons in Hin' as [Heq|Hin']; done.
Qed.

Lemma length_zero_empty (s : string) : (String.length s =? 0)%nat = true <-> s = "".
Proof.
  destruct s; simpl; split; try done.
Qed.

(** The effect of [pruneTrace] on every address of the heap. *)
Lemma pruneTrace_lookup trace spanType h p :
  pruneTrace trace spanType h p =
    if decide (spanType = "") then h p
    else if decide (p ∈ Spans trace) then prune_span spanType (h p)
    else h p.
Proof.
  unfold pruneTrace.
  destruct (String.length spanType =? 0)%nat eqn:Hlen.
  - apply length_zero_empty in Hlen. by rewrite decide_True.
  - rewrite decide_False.
    + apply pruneTrace_loop.
    + intros ->. discriminate.
Qed.

(** C4. [pruneTrace] is a total function of the trace, the category and the
    heap, and the stage of the handler that runs it always returns.  With an
    empty category the heap is returned as it is.  With a non-empty
    category every span of the trace keeps its identity and its other
    fields, and its logs become the logs that carry the category key, in
    their original order: an ordered subsequence, empty when no log carries
    the key.  Spans outside the trace are untouched and the trace has as
    many spans as before. *)
Theorem pruneTrace_filters_logs (trace : Trace) (spanType : string) (h : Heap) :
  (spanType = "" -> pruneTrace trace spanType h = h)
  /\ (spanType <> "" -> forall span, span ∈ Spans trace ->
        let s := h span in
        let s' := pruneTrace trace spanType h span in
        Logs s' = filter (log_has_key spanType) (Logs s)
        /\ sublist (Logs s') (Logs s)
        /\ (forall log, log ∈ Logs s' <-> log ∈ Logs s /\ log_has_key spanType log)
        /\ Span_TraceID s' = Span_TraceID s
        /\ model.OperationName s' = model.OperationName s
        /\ ((forall log, log ∈ Logs s -> ~ log_has_key spanType log) ->
             Logs s' = []))
  /\ (forall p, p ∉ Spans trace -> pruneTrace trace spanType h p = h p)
  /\ length (snapshot (pruneTrace trace spanType h) trace)
       = length (snapshot h trace)
  /\ (forall Backend (query : traceQuery) (w : World Backend),
        fst (handleTrace_finish query trace w) = Some (0%Z, None)).
Proof.
  split; [|split; [|split; [|split]]].
  - intros ->. reflexivity.
  - intros Hne span Hin. cbn zeta.
    rewrite pruneTrace_lookup, decide_False, decide_True by done.
    unfold prune_span; simpl.
    split; [done|]. split; [apply sublist_filter|].
    split; [intros log; rewrite list_elem_of_filter; tauto|].
    split; [done|]. split; [done|].
    intros Hnone. induction (Logs (h span)) as [|log logs IH]; [done|].
    rewrite filter_cons_False.
    + apply IH. intros log' Hin'. apply Hnone. by apply list_elem_of_further.
    + apply Hnone. apply list_elem_of_here.
  - intros p Hp. rewrite pruneTrace_lookup, (decide_False (P := p ∈ Spans trace)) by done.
    by case_decide.
  - unfold snapshot. by rewrite !length_map.
  - reflexivity.
Qed.

Lemma pruneTrace_filters_logs_witness :
  pruneTrace Fixture.aliased "" Fixture.h0 = Fixture.h0
  /\ Logs (pruneTrace Fixture.aliased "audit" Fixture.h0 0)
     = [Fixture.audit_log 1; Fixture.audit_log 3]
  /\ Logs (pruneTrace Fixture.aliased "audit" Fixture.h0 1) = []
  /\ pruneTrace Fixture.aliased "audit" Fixture.h0 20 = Fixture.h0 20.
Proof.
  destruct (pruneTrace_filters_logs Fixture.aliased "" Fixture.h0)
    as (Hempty & _).
  destruct (pruneTrace_filters_logs Fixture.aliased "audit" Fixture.h0)
    as (_ & Hkeep & Hout & _).
  split; [by apply Hempty|].
  split.
  { destruct (Hkeep ltac:(discriminate) 0) as (-> & _); [| reflexivity].
    compute_done. }
  split.
  { destruct (Hkeep ltac:(discriminate) 1) as (_ & _ & _ & _ & _ & Hnone).
    - compute_done.
    - apply Hnone. simpl. intros log Hlog.
      apply list_elem_of_singleton in Hlog as ->.
      unfold log_has_key; simpl. intros Hex.
      apply Exists_cons in Hex as [Hex|Hex]; [discriminate | inversion Hex]. }
  apply Hout. compute_done.
Defined.

(** C10. Pruning is idempotent: pruning the pruned heap again with the same
    category changes no span, so every span of the trace shows the same
    logs after the second pass as after the first. *)
Theorem pruneTrace_idempotent (trace : Trace) (spanType : string) (h : Heap) :
  (forall p, pruneTrace trace spanType (pruneTrace trace spanType h) p
             = pruneTrace trace spanType h p)
  /\ snapshot (pruneTrace trace spanType (pruneTrace trace spanType h)) trace
     = snapshot (pruneTrace trace spanType h) trace.
Proof.
  assert (forall p, pruneTrace trace spanType (pruneTrace trace spanType h) p
                    = pruneTrace trace spanType h p) as Hall.
  { intros p. rewrite !pruneTrace_lookup.
    repeat case_decide; try done. apply prune_span_idemp. }
  split; [exact Hall|].
  unfold snapshot. apply map_ext. intros p. apply Hall.
Qed.

(* ================================================================== *)
(** * Properties of the time window                                    *)
(* ================================================================== *)

Lemma thirty_minutes : (GoTime.Minute * 30 = 1800000000000)%Z.
Proof. reflexivity. Qed.

Lemma Truncate_aligned (t : GoTime.Time) (d : GoTime.Duration) :
  (0 < d)%Z -> (GoTime.Truncate t d mod d = 0)%Z.
Proof.
  intros Hd. unfold GoTime.Truncate.
  destruct (Z.leb_spec d 0) as [Hle|_]; [lia|].
  rewrite Zminus_mod_idemp_r, Z.sub_diag. apply Z.mod_0_l. lia.
Qed.

Lemma Truncate_bounds (t : GoTime.Time) (d : GoTime.Duration) :
  (0 < d)%Z -> (GoTime.Truncate t d <= t < GoTime.Truncate t d + d)%Z.
Proof.
  intros Hd. unfold GoTime.Truncate.
  destruct (Z.leb_spec d 0) as [Hle|_]; [lia|].
  pose proof (Z.mod_pos_bound t d Hd). lia.
Qed.

Lemma Truncate_fixed (t : GoTime.Time) (d : GoTime.Duration) :
  (t mod d = 0)%Z -> GoTime.Truncate t d = t.
Proof.
  intros Hmod. unfold GoTime.Truncate.
  destruct (d <=? 0)%Z; [done|]. rewrite Hmod. lia.
Qed.

(** C5. For every timestamp, and so for every timestamp the parser returns,
    the window of the query contains it, is half-open, is exactly
    30 minutes long, and bucketing the start of the window gives the same
    window again. *)
Theorem bucket_window (t : GoTime.Time) :
  let start := fst (bucket t) in
  let end_ := snd (bucket t) in
  (start <= t < end_)%Z
  /\ GoTime.Sub end_ start = (30 * GoTime.Minute)%Z
  /\ bucket start = bucket t
  /\ (forall serviceName cluster tags,
        let p := findTrace_parameters serviceName cluster tags t in
        (StartTimeMin p, StartTimeMax p) = bucket t).
Proof.
  cbn zeta. unfold bucket; cbn [fst snd].
  assert (0 < GoTime.Minute * 30)%Z as Hpos by (rewrite thirty_minutes; lia).
  pose proof (Truncate_bounds t _ Hpos) as Hb.
  split; [unfold GoTime.Add; lia|].
  split; [unfold GoTime.Sub, GoTime.Add; lia|].
  split; [|reflexivity].
  by rewrite (Truncate_fixed (GoTime.Truncate t _)) by (by apply Truncate_aligned).
Qed.

(* ================================================================== *)
(** * Properties of the cluster comparison                             *)
(* ================================================================== *)

Section Folding.

Variable Map_unicode_ToLower : string -> string.
Variable EqualFold_hasUnicode : string -> string -> bool.

Local Abbreviation ToLower := (GoStrings.ToLower Map_unicode_ToLower).
Local Abbreviation EqualFold := (GoStrings.EqualFold EqualFold_hasUnicode).

Lemma ToLower_scan_ascii s hasUpper :
  GoStrings.isASCII s = true ->
  exists hasUpper', GoStrings.ToLower_scan s hasUpper = (true, hasUpper')
    /\ (hasUpper' = false -> GoStrings.ToLower_ascii s = s).
Proof.
  revert hasUpper. induction s as [|c s IH]; intros hasUpper Hs; simpl in *.
  - eauto.
  - apply andb_true_iff in Hs as [Hc Hs].
    apply N.ltb_lt in Hc.
    destruct (N.leb_spec GoStrings.RuneSelf (GoStrings.byte_val c)) as [Hge|_];
      [lia|].
    destruct (IH (hasUpper || GoStrings.isUpperASCII c) Hs) as (u & Hscan & Hu).
    exists u. split; [done|]. intros ->. 
    rewrite Hu by done.
    destruct (GoStrings.isUpperASCII c) eqn:Hup; [|done].
    (* an upper-case byte was seen, so the flag cannot be false *)
    exfalso. clear -Hscan Hs.
    assert (forall s acc, GoStrings.isASCII s = true ->
              GoStrings.ToLower_scan s acc = (true, false) -> acc = false) as Hmono.
    { clear. induction s as [|c s IH]; intros acc Hs Hscan; simpl in *.
      - congruence.
      - apply andb_true_iff in Hs as [Hc Hs]. apply N.ltb_lt in Hc.
        destruct (N.leb_spec GoStrings.RuneSelf (GoStrings.byte_val c)); [lia|].
        apply IH in Hscan; [|done]. by apply orb_false_iff in Hscan as [? _]. }
    apply Hmono in Hscan; [|done].
    by rewrite orb_true_r in Hscan.
Qed.

(** On an ASCII string [ToLower] is the byte-wise lowering. *)
Lemma ToLower_ascii_path s :
  GoStrings.isASCII s = true -> ToLower s = GoStrings.ToLower_ascii s.
Proof.
  intros Hs. unfold GoStrings.ToLower.
  destruct (ToLower_scan_ascii s false Hs) as (u & -> & Hu).
  destruct u; simpl; [done|]. by rewrite Hu.
Qed.



Lemma ToLower_ascii_isASCII s :
  GoStrings.isASCII s = true ->
  GoStrings.isASCII (GoStrings.ToLower_ascii s) = true.
Proof.
  induction s as [|c s IH]; simpl; [done|].
  intros [Hc Hs]%andb_true_iff. rewrite IH by done.
  rewrite andb_true_r.
  destruct (GoStrings.isUpperASCII c) eqn:Hup; [|done].
  revert Hup. clear.
  destruct c as [[] [] [] [] [] [] [] []]; vm_compute; done.
Qed.



End Folding.

(* ================================================================== *)
(** * Properties of the request pipeline                               *)
(* ================================================================== *)

Lemma findTrace_emptyParam_iff (query : traceQuery) :
  findTrace_emptyParam query = true
  <-> Cluster query = "" \/ Resource query = "" \/ Name query = "".
Proof.
  unfold findTrace_emptyParam.
  rewrite !orb_true_iff, !length_zero_empty. tauto.
Qed.

Lemma findTrace_emptyParam_false (query : traceQuery) :
  Cluster query <> "" -> Resource query <> "" -> Name query <> "" ->
  findTrace_emptyParam query = false.
Proof.
  intros Hc Hr Hn. apply not_true_is_false.
  rewrite findTrace_emptyParam_iff. tauto.
Qed.

(** What is rendered after pruning: every span of the trace with its logs
    filtered, or the spans as they were when the category is empty. *)
Lemma snapshot_pruneTrace (trace : Trace) (spanType : string) (h : Heap) :
  snapshot (pruneTrace trace spanType h) trace
  = if decide (spanType = "") then snapshot h trace
    else map (prune_span spanType) (snapshot h trace).
Proof.
  unfold snapshot. rewrite map_map.
  case_decide as Hst.
  - apply map_ext. intros p. rewrite pruneTrace_lookup. by rewrite decide_True.
  - apply map_ext_in. intros p Hin. rewrite pruneTrace_lookup.
    rewrite decide_False by done.
    by rewrite decide_True by (by apply list_elem_of_In).
Qed.

(** [hasLogs] is set exactly when some span of the trace carries a log. *)
Lemma handleTrace_hasLogs_iff (h : Heap) (trace : Trace) :
  handleTrace_hasLogs h trace = true
  <-> Exists (fun span => Logs (h span) <> []) (Spans trace).
Proof.
  unfold handleTrace_hasLogs.
  enough (forall l acc,
    fold_left (fun hasLogs span =>
                 if (0 <? length (Logs (h span)))%nat then true else hasLogs) l acc
    = true
    <-> acc = true \/ Exists (fun span => Logs (h span) <> []) l) as H.
  { rewrite H. split; [intros [?|?]; done | by right]. }
  induction l as [|span l IH]; intros acc; simpl.
  - rewrite Exists_nil. tauto.
  - rewrite IH, Exists_cons.
    destruct (Logs (h span)) as [|log logs]; simpl.
    + split; [tauto|]. intros [?|[?|?]]; [tauto | done | tauto].
    + split; [|tauto]. intros _. right. by left.
Qed.

(** The fetch by trace ID is guarded by: the trace has a span and no span
    carries a log. *)
Lemma handleTrace_refetch_iff (h : Heap) (trace : Trace) :
  handleTrace_refetch h trace = true
  <-> Spans trace <> []
      /\ Forall (fun span => Logs (h span) = []) (Spans trace).
Proof.
  unfold handleTrace_refetch. rewrite andb_true_iff, negb_true_iff.
  rewrite <- not_true_iff_false, handleTrace_hasLogs_iff.
  rewrite <- Forall_Exists_neg.
  assert ((0 <? length (Spans trace))%nat = true <-> Spans trace <> []) as ->.
  { destruct (Spans trace); simpl; split; intros H;
      [discriminate | exfalso; by apply H | done | done]. }
  split; intros [H1 H2].
  - split; [done|].
    eapply Forall_impl; [exact H1|]. intros span Hs; simpl in Hs.
    destruct (Logs (h span)); [done|]. exfalso. by apply Hs.
  - split; [|done].
    eapply Forall_impl; [exact H2|]. intros span -> Hs. done.
Qed.

Lemma handleTrace_refetch_false_iff (h : Heap) (trace : Trace) :
  handleTrace_refetch h trace = false
  <-> Spans trace = []
      \/ Exists (fun span => Logs (h span) <> []) (Spans trace).
Proof.
  rewrite <- not_true_iff_false, handleTrace_refetch_iff.
  rewrite <- handleTrace_hasLogs_iff.
  destruct (Spans trace) as [|span0 rest] eqn:Hspans.
  - split; [by left | intros _ [? _]; done].
  - rewrite <- Hspans.
    destruct (handleTrace_hasLogs h trace) eqn:Hlogs.
    + split; [by right|]. intros _ [_ Hall].
      apply handleTrace_hasLogs_iff in Hlogs.
      apply Exists_exists in Hlogs as (span & Hin & Hne).
      rewrite Forall_forall in Hall. by apply Hne, Hall.
    + split; [|intros [?|?]; congruence].
      intros Hn. exfalso. apply Hn. split; [congruence|].
      apply Forall_forall. intros span Hin.
      destruct (Logs (h span)) eqn:Hl; [done|].
      apply not_true_iff_false in Hlogs. exfalso. apply Hlogs.
      apply handleTrace_hasLogs_iff, Exists_exists. exists span.
      split; [done|congruence].
Qed.

(** Reduce the monadic plumbing of a request. *)
Ltac run_request :=
  cbv beta iota zeta delta
    [negb bind ret panic set_metric_Error get_heap update_heap ctx_JSON
     call_FindTraces call_GetTrace fst snd].

(** Case analysis on the path of the request in the goal. *)
Ltac by_path lemma :=
  cbn zeta;
  match goal with
  | |- context [resolve ?f ?g ?p ?srv ?ctx ?h ?b] =>
      generalize (lemma srv ctx h b);
      generalize (resolve f g p srv ctx h b);
      let res := fresh "res" in
      let HS := fresh "HS" in
      intros res HS; destruct HS; simplify_eq;
      repeat match goal with
        | H1 : ?x = _, H2 : ?x = _ |- _ => rewrite H1 in H2; simplify_eq
        end
  end.

(** The end of a successful request. *)
Lemma finish_eq {Backend} (query : traceQuery) (trace : Trace) (w : World Backend) :
  handleTrace_finish query trace w
  = (Some (0%Z, None),
     record_written 200
       (snapshot (pruneTrace trace (SpanType query) (heap w)) trace)
       (record_heap (pruneTrace trace (SpanType query) (heap w)) w)).
Proof. reflexivity. Qed.

(** Compute the fields of the world a path ends in. *)
Ltac simpl_world :=
  rewrite ?finish_eq in *;
  cbn [fst snd calls heap backend metric_Error written record_metric
       record_call record_written record_heap initial handleTrace_finish
       bind ret get_heap update_heap ctx_JSON app] in *.

(** Split a membership in an explicit list of calls. *)
Ltac split_calls H :=
  rewrite ?elem_of_cons, ?elem_of_nil in H; destruct_or?; simplify_eq.

Section Pipeline.

Context {Backend : Type}.
Variable Map_unicode_ToLower : string -> string.
Variable EqualFold_hasUnicode : string -> string -> bool.
Variable time_Parse : string -> string -> error + GoTime.Time.

Local Abbreviation matches :=
  (cluster_matches Map_unicode_ToLower EqualFold_hasUnicode).
Local Abbreviation hasCluster :=
  (findTrace_hasCluster Map_unicode_ToLower EqualFold_hasUnicode).
Local Abbreviation locate :=
  (findTrace Map_unicode_ToLower EqualFold_hasUnicode time_Parse).
Local Abbreviation serve :=
  (resolve Map_unicode_ToLower EqualFold_hasUnicode time_Parse).

Implicit Types (srv : server Backend) (ctx : GinContext)
  (query : traceQuery) (h : Heap) (b : Backend) (w : World Backend).

(** The membership loop finds a cluster exactly when some listed name
    matches it. *)
Lemma hasCluster_iff srv cluster :
  hasCluster srv cluster = true
  <-> Exists (fun known => matches known cluster = true) (List (clusterList srv)).
Proof.
  unfold findTrace_hasCluster.
  enough (forall l acc,
    fold_left (fun hasCluster knownCluster =>
                 if matches knownCluster cluster then true else hasCluster) l acc
    = true
    <-> acc = true \/ Exists (fun known => matches known cluster = true) l) as H.
  { rewrite H. split; [intros [?|?]; done | by right]. }
  induction l as [|known l IH]; intros acc; simpl.
  - rewrite Exists_nil. tauto.
  - rewrite IH, Exists_cons.
    destruct (matches known cluster); split; try tauto.
    intros [?|[?|?]]; try tauto. discriminate.
Qed.


(** ** The branches of [findTrace] *)

Lemma locate_EmptyParam srv serviceName query w :
  findTrace_emptyParam query = true ->
  locate srv serviceName query w
  = (Some (None, 400%Z,
           Some (fmt_Errorf "cluster or resource or name is empty" [])),
     record_metric "EmptyParam" w).
Proof. intros H. unfold findTrace. by rewrite H. Qed.

Lemma locate_UnknownCluster srv serviceName query w :
  findTrace_emptyParam query = false ->
  hasCluster srv (Cluster query) = false ->
  locate srv serviceName query w
  = (Some (None, 404%Z,
           Some (fmt_Errorf "cluster %s not supported now"
                   [arg_string (Cluster query)])),
     record_metric "UnknownCluster" w).
Proof. intros H1 H2. unfold findTrace. by rewrite H1, H2. Qed.

Lemma locate_InvalidTimestamp srv serviceName query w err :
  findTrace_emptyParam query = false ->
  hasCluster srv (Cluster query) = true ->
  time_Parse time_RFC3339 (Ts query) = inl err ->
  locate srv serviceName query w
  = (Some (None, 400%Z,
           Some (fmt_Errorf "invalid timestamp for ts param %w" [arg_error err])),
     record_metric "InvalidTimestamp" w).
Proof. intros H1 H2 H3. unfold findTrace. by rewrite H1, H2, H3. Qed.

Lemma locate_query srv serviceName query w timestamp r b1 h1 :
  findTrace_emptyParam query = false ->
  hasCluster srv (Cluster query) = true ->
  time_Parse time_RFC3339 (Ts query) = inr timestamp ->
  FindTraces (spanReader srv) context.Background
    (parameters_of serviceName query timestamp) (backend w) (heap w)
  = (r, b1, h1) ->
  let w1 := record_call
              (Call_FindTraces context.Background
                 (parameters_of serviceName query timestamp)) b1 h1 w in
  locate srv serviceName query w
  = match r with
    | inl err =>
        (Some (None, 500%Z,
               Some (fmt_Errorf "failed to find trace ids %w" [arg_error err])),
         record_metric "TraceError" w1)
    | inr [] =>
        (Some (None, 404%Z,
               Some (fmt_Errorf "could not find trace ids that match query" [])),
         record_metric "NoTraceMatch" w1)
    | inr [trace] => (Some (Some trace, 200%Z, None), w1)
    | inr traces =>
        (Some (None, 500%Z,
               Some (fmt_Errorf "trace ids match query length is %d, not 1"
                       [arg_int (Z.of_nat (length traces))])),
         record_metric "MultiTraceMatch" w1)
    end.
Proof.
  intros H1 H2 H3 H4. unfold findTrace, parameters_of in *.
  rewrite H1, H2, H3. run_request. rewrite H4. destruct r as [err|[|trace [|trace' traces]]]; reflexivity.
Qed.

(** [findTrace] returns a trace only on its last line. *)
Lemma locate_found_inv srv serviceName query w trace code w1 :
  locate srv serviceName query w = (Some (Some trace, code, None), w1) ->
  exists timestamp b1 h1,
    findTrace_emptyParam query = false
    /\ hasCluster srv (Cluster query) = true
    /\ time_Parse time_RFC3339 (Ts query) = inr timestamp
    /\ FindTraces (spanReader srv) context.Background
         (parameters_of serviceName query timestamp) (backend w) (heap w)
       = (inr [trace], b1, h1)
    /\ code = 200%Z
    /\ w1 = record_call
              (Call_FindTraces context.Background
                 (parameters_of serviceName query timestamp)) b1 h1 w.
Proof.
  intros Hloc.
  destruct (findTrace_emptyParam query) eqn:Hempty.
  { rewrite locate_EmptyParam in Hloc by done. discriminate. }
  destruct (hasCluster srv (Cluster query)) eqn:Hcluster; cycle 1.
  { rewrite locate_UnknownCluster in Hloc by done. discriminate. }
  destruct (time_Parse time_RFC3339 (Ts query)) as [err|timestamp] eqn:Hparse.
  { rewrite (locate_InvalidTimestamp _ _ _ _ err) in Hloc by done.
    discriminate. }
  destruct (FindTraces (spanReader srv) context.Background
              (parameters_of serviceName query timestamp) (backend w) (heap w))
    as [[r b1] h1] eqn:Hfind.
  rewrite (locate_query srv _ query _ timestamp r b1 h1) in Hloc by done.
  destruct r as [err|[|trace0 [|trace' traces]]]; simplify_eq.
  exists timestamp, b1, h1. done.
Qed.

(** [findTrace] writes nothing and calls the reader at most once, with the
    tag query. *)
Lemma locate_effects srv serviceName query w r w1 :
  locate srv serviceName query w = (r, w1) ->
  written w1 = written w
  /\ (calls w1 = calls w
      \/ exists p, calls w1 = (calls w ++ [Call_FindTraces context.Background p])%list).
Proof.
  intros Hloc.
  destruct (findTrace_emptyParam query) eqn:Hempty.
  { rewrite locate_EmptyParam in Hloc by done. simplify_eq. split; [done|by left]. }
  destruct (hasCluster srv (Cluster query)) eqn:Hcluster; cycle 1.
  { rewrite locate_UnknownCluster in Hloc by done. simplify_eq.
    split; [done|by left]. }
  destruct (time_Parse time_RFC3339 (Ts query)) as [err|timestamp] eqn:Hparse.
  { rewrite (locate_InvalidTimestamp _ _ _ _ err) in Hloc by done.
    simplify_eq. split; [done|by left]. }
  destruct (FindTraces (spanReader srv) context.Background
              (parameters_of serviceName query timestamp) (backend w) (heap w))
    as [[r0 b1] h1] eqn:Hfind.
  rewrite (locate_query srv _ query _ timestamp r0 b1 h1) in Hloc by done.
  destruct r0 as [err|[|trace0 [|trace' traces]]]; simplify_eq;
    (split; [done|right; eexists; reflexivity]).
Qed.

(** Every request takes one of the paths of [Served]. *)
Lemma serve_Served srv ctx h b :
  Served Map_unicode_ToLower EqualFold_hasUnicode time_Parse srv ctx h b
    (serve srv ctx h b).
Proof.
  unfold resolve, handleTrace.
  destruct (BindQuery ctx) as [err|query] eqn:Hbind.
  { by apply Served_InvalidParam. }
  destruct (findTrace_emptyParam query) eqn:Hempty.
  { run_request. rewrite locate_EmptyParam by done.
    by eapply Served_EmptyParam. }
  destruct (hasCluster srv (Cluster query)) eqn:Hcluster; cycle 1.
  { run_request. rewrite locate_UnknownCluster by done.
    by eapply Served_UnknownCluster. }
  destruct (time_Parse time_RFC3339 (Ts query)) as [err|timestamp] eqn:Hparse.
  { run_request. rewrite (locate_InvalidTimestamp _ _ _ _ err) by done.
    by eapply Served_InvalidTimestamp. }
  destruct (FindTraces (spanReader srv) context.Background
              (parameters_of tracing_exclusive query timestamp) b h)
    as [[r b1] h1] eqn:Hfind.
  run_request.
  rewrite (locate_query srv _ query _ timestamp r b1 h1) by done.
  destruct r as [err|[|trace [|trace' traces]]].
  - by eapply Served_FindError.
  - by eapply Served_NoTraceMatch.
  - cbn [heap record_call backend].
    destruct (handleTrace_refetch h1 trace) eqn:Hre.
    + destruct (Spans trace) as [|span0 rest] eqn:Hspans.
      { unfold handleTrace_refetch in Hre. rewrite Hspans in Hre.
        by rewrite andb_false_r in Hre. }
      destruct (GetTrace (spanReader srv) context.Background
                  (Span_TraceID (h1 span0)) b1 h1) as [[r2 b2] h2] eqn:Hget.
      run_request. cbn [heap backend record_call]. rewrite Hget.
      destruct r2 as [err|trace'].
      * by eapply Served_RefetchError.
      * by eapply Served_Refetched.
    + by eapply Served_Found.
  - eapply Served_MultiTraceMatch; try done. simpl. lia.
Qed.

(** No request panics: the nil dereference and the index out of range
    that the handler could reach are excluded by the tests before them. *)
Lemma serve_no_panic srv ctx h b : fst (serve srv ctx h b) <> None.
Proof. by_path serve_Served; simpl_world; discriminate. Qed.

(** C6. A request in which cluster, resource or name is empty is answered
    with status 400 and the category EmptyParam, a validation failure,
    and the span reader observes no call: neither the tag query nor the
    fetch by trace ID. Nothing is rendered and no span is changed. *)
Theorem empty_param_no_store_call srv ctx query h b :
  BindQuery ctx = inr query ->
  Cluster query = "" \/ Resource query = "" \/ Name query = "" ->
  let res := serve srv ctx h b in
  fst res = Some (400%Z,
                  Some (fmt_Errorf "cluster or resource or name is empty" []))
  /\ metric_Error (snd res) = Some "EmptyParam"
  /\ outcome res = Some ValidationFailure
  /\ status_class 400 = Some ClientError
  /\ calls (snd res) = []
  /\ written (snd res) = None
  /\ heap (snd res) = h /\ backend (snd res) = b.
Proof.
  intros Hbind Hempty. apply findTrace_emptyParam_iff in Hempty.
  by_path serve_Served; try congruence.
  repeat split.
Qed.


(** C2. When the tag query of a request is answered with more than one
    trace, the request is answered with status 500 and the category
    MultiTraceMatch: a server error. [findTrace] returns a nil trace with
    the error, so the first trace is not selected; no fetch by trace ID
    follows, nothing is rendered and no span is pruned. *)
Theorem multiple_traces_are_an_error srv ctx h b c p traces b1 h1 :
  Call_FindTraces c p ∈ calls (snd (serve srv ctx h b)) ->
  FindTraces (spanReader srv) c p b h = (inr traces, b1, h1) ->
  (1 < length traces)%nat ->
  let res := serve srv ctx h b in
  let err := fmt_Errorf "trace ids match query length is %d, not 1"
               [arg_int (Z.of_nat (length traces))] in
  fst res = Some (500%Z, Some err)
  /\ metric_Error (snd res) = Some "MultiTraceMatch"
  /\ outcome res = Some AmbiguousMatch
  /\ status_class 500 = Some ServerError
  /\ written (snd res) = None
  /\ calls (snd res) = [Call_FindTraces c p]
  /\ heap (snd res) = h1
  /\ exists query,
       BindQuery ctx = inr query
       /\ fst (locate srv tracing_exclusive query (initial h b))
          = Some (None, 500%Z, Some err).
Proof.
  intros Hin Hfind Hlen. revert Hin.
  by_path serve_Served; intros Hin; simpl_world; split_calls Hin;
    repeat match goal with
      | H1 : ?x = _, H2 : ?x = _ |- _ => rewrite H1 in H2; simplify_eq
      end;
    try (simpl in Hlen; lia).
  repeat split. exists query. split; [done|].
  erewrite locate_query by done.
  match goal with
  | Hl : (1 < length ?ts)%nat |- _ =>
      destruct ts as [|t1 [|t2 ts']]; simpl in *; [lia | lia | done]
  end.
Qed.

(** The tags of the query: resource and name, and namespace exactly when
    it is not empty. *)
Lemma findTrace_tags_lookup resource name namespace :
  let tags := findTrace_tags resource name namespace in
  tags !! "resource" = Some resource
  /\ tags !! "name" = Some name
  /\ tags !! "namespace"
     = (if decide (namespace = "") then None else Some namespace)
  /\ (forall k, k <> "resource" -> k <> "name" -> k <> "namespace" ->
        tags !! k = None)
  /\ dom tags
     = {["resource"; "name"]}
       ∪ (if decide (namespace = "") then ∅ else {["namespace"]}).
Proof.
  cbn zeta. unfold findTrace_tags.
  destruct (decide (namespace = "")) as [->|Hne].
  - cbn [String.eqb negb].
    repeat split; try (intros; by simplify_map_eq);
      rewrite !dom_insert_L, dom_empty_L; set_solver.
  - rewrite (proj2 (String.eqb_neq _ _) Hne). cbn [negb].
    repeat split; try (intros; by simplify_map_eq);
      rewrite !dom_insert_L, dom_empty_L; set_solver.
Qed.

(** C9. Every tag query a request issues is built from the bound query
    and its parsed timestamp alone: the service name is the constant
    "tracing (exclusive)", the operation name is the cluster, the tags
    are resource and name, and namespace exactly when it is not empty,
    and the window is the 30 minute window of the timestamp. *)
Theorem trace_query_from_identity srv ctx h b c p :
  Call_FindTraces c p ∈ calls (snd (serve srv ctx h b)) ->
  exists query timestamp,
    BindQuery ctx = inr query
    /\ time_Parse time_RFC3339 (Ts query) = inr timestamp
    /\ p = parameters_of tracing_exclusive query timestamp
    /\ ServiceName p = "tracing (exclusive)"
    /\ OperationName p = Cluster query
    /\ Tags p !! "resource" = Some (Resource query)
    /\ Tags p !! "name" = Some (Name query)
    /\ Tags p !! "namespace"
       = (if decide (Namespace query = "") then None
          else Some (Namespace query))
    /\ (forall k, k <> "resource" -> k <> "name" -> k <> "namespace" ->
          Tags p !! k = None)
    /\ dom (Tags p)
       = {["resource"; "name"]}
         ∪ (if decide (Namespace query = "") then ∅ else {["namespace"]})
    /\ (StartTimeMin p, StartTimeMax p) = bucket timestamp
    /\ DurationMin p = 0%Z /\ DurationMax p = 0%Z /\ NumTraces p = 0%Z.
Proof.
  by_path serve_Served; intros Hin; simpl_world; split_calls Hin;
    exists query, timestamp;
    destruct (findTrace_tags_lookup (Resource query) (Name query)
                (Namespace query)) as (? & ? & ? & ? & ?);
    repeat split; done.
Qed.

(** C8, amended. Every call a request makes to the span reader, the tag
    query and the fetch by trace ID alike, is given the background
    context, which is never cancelled, whatever the context of the
    request is; the request is served in the same way for every request
    context. *)
Theorem store_calls_use_background srv ctx h b :
  (forall call, call ∈ calls (snd (serve srv ctx h b)) ->
     call_context call = context.Background
     /\ context.Done (call_context call) = false
     /\ (forall cancelled deadline,
           Request_Context ctx = context.Request cancelled deadline ->
           call_context call <> Request_Context ctx))
  /\ (forall rc,
        serve srv {| BindQuery := BindQuery ctx; Request_Context := rc |} h b
        = serve srv ctx h b).
Proof.
  split; [|reflexivity].
  intros call.
  by_path serve_Served; intros Hin; simpl_world; split_calls Hin;
    (split; [done|]; split; [done|]); intros ? ? ->; done.
Qed.

(** C3. For a trace that [findTrace] located: when the trace has a span
    and no span carries a log, exactly one fetch by trace ID is issued,
    with the trace ID of the first span; a failed fetch is answered with
    status 500 and the category TraceError, and the trace of a successful
    fetch is the one that is pruned and rendered.  When the trace has no
    span, or some span carries a log, no fetch is issued and the located
    trace is the one that is pruned and rendered.  No request issues more
    than one fetch by trace ID. *)
Theorem refetch_policy srv ctx h b :
  (forall query trace w1,
     BindQuery ctx = inr query ->
     locate srv tracing_exclusive query (initial h b)
     = (Some (Some trace, 200%Z, None), w1) ->
     let res := serve srv ctx h b in
     let spanType := SpanType query in
     (Spans trace <> [] ->
      Forall (fun span => Logs (heap w1 span) = []) (Spans trace) ->
      exists span0 rest r b2 h2,
        Spans trace = span0 :: rest
        /\ GetTrace (spanReader srv) context.Background
             (Span_TraceID (heap w1 span0)) (backend w1) (heap w1)
           = (r, b2, h2)
        /\ calls (snd res)
           = (calls w1
              ++ [Call_GetTrace context.Background
                    (Span_TraceID (heap w1 span0))])%list
        /\ count_GetTrace (calls (snd res)) = 1%nat
        /\ match r with
           | inl err =>
               fst res
               = Some (500%Z,
                       Some (fmt_Errorf "failed to find trace ids %w"
                               [arg_error err]))
               /\ metric_Error (snd res) = Some "TraceError"
               /\ outcome res = Some StoreFailure
               /\ written (snd res) = None
               /\ heap (snd res) = h2
           | inr trace' =>
               fst res = Some (0%Z, None)
               /\ written (snd res)
                  = Some (200%Z,
                          snapshot (pruneTrace trace' spanType h2) trace')
               /\ heap (snd res) = pruneTrace trace' spanType h2
           end)
     /\ (Spans trace = []
         \/ Exists (fun span => Logs (heap w1 span) <> []) (Spans trace) ->
         calls (snd res) = calls w1
         /\ count_GetTrace (calls (snd res)) = 0%nat
         /\ fst res = Some (0%Z, None)
         /\ written (snd res)
            = Some (200%Z,
                    snapshot (pruneTrace trace spanType (heap w1)) trace)
         /\ heap (snd res) = pruneTrace trace spanType (heap w1)))
  /\ (count_GetTrace (calls (snd (serve srv ctx h b))) <= 1)%nat.
Proof.
  split.
  - intros query trace w1 Hbind Hloc.
    apply locate_found_inv in Hloc
      as (timestamp & b1 & h1 & Hempty & Hcluster & Hparse & Hfind & _ & ->).
    simpl_world.
    by_path serve_Served; try (simpl in *; lia); simpl_world.
    + (* the located trace is rendered *)
      split.
      * intros Hne Hall. pose proof (conj Hne Hall) as Hre.
        apply handleTrace_refetch_iff in Hre. congruence.
      * intros _. repeat split.
    + (* the fetch by trace ID failed *)
      split.
      * intros _ _. exists span0, rest, (inl err), b2, h2. repeat split; done.
      * intros Hno. apply handleTrace_refetch_false_iff in Hno. congruence.
    + (* the fetched trace is rendered *)
      split.
      * intros _ _. exists span0, rest, (inr trace'), b2, h2.
        repeat split; done.
      * intros Hno. apply handleTrace_refetch_false_iff in Hno. congruence.
  - by_path serve_Served; simpl_world; cbv; lia.
Qed.

(** C1, amended. A request with non-empty cluster, resource and name, a
    cluster that matches a listed name, a timestamp that parses, and a tag
    query answered with exactly one trace is answered with success,
    provided that the fetch by trace ID succeeds when it is needed.  What
    is rendered is the located trace, or the fetched trace when the
    located trace has spans and no logs, with every span pruned to the
    category.  When [findTrace] fails, [handleTrace] returns its status
    and error at once: no fetch by trace ID is issued and nothing is
    written.  Whenever a request fails, nothing is rendered and no span
    has been pruned: the store and the heap are as the calls to the reader
    left them. *)
Theorem single_match_is_success srv ctx h b :
  (forall query timestamp trace b1 h1,
     BindQuery ctx = inr query ->
     Cluster query <> "" -> Resource query <> "" -> Name query <> "" ->
     Exists (fun known => matches known (Cluster query) = true)
       (List (clusterList srv)) ->
     time_Parse time_RFC3339 (Ts query) = inr timestamp ->
     FindTraces (spanReader srv) context.Background
       (parameters_of tracing_exclusive query timestamp) b h
     = (inr [trace], b1, h1) ->
     (forall span0 rest,
        Spans trace = span0 :: rest -> handleTrace_refetch h1 trace = true ->
        exists trace' b2 h2,
          GetTrace (spanReader srv) context.Background
            (Span_TraceID (h1 span0)) b1 h1 = (inr trace', b2, h2)) ->
     let res := serve srv ctx h b in
     let spanType := SpanType query in
     exists working hw,
       ((handleTrace_refetch h1 trace = false /\ working = trace /\ hw = h1)
        \/ (handleTrace_refetch h1 trace = true
            /\ exists span0 rest b2,
                 Spans trace = span0 :: rest
                 /\ GetTrace (spanReader srv) context.Background
                      (Span_TraceID (h1 span0)) b1 h1
                    = (inr working, b2, hw)))
       /\ fst res = Some (0%Z, None)
       /\ outcome res
          = Some (Success (snapshot (pruneTrace working spanType hw) working))
       /\ written (snd res)
          = Some (200%Z, snapshot (pruneTrace working spanType hw) working)
       /\ heap (snd res) = pruneTrace working spanType hw
       /\ metric_Error (snd res) = None
       /\ snapshot (pruneTrace working spanType hw) working
          = if decide (spanType = "") then snapshot hw working
            else map (prune_span spanType) (snapshot hw working))
  /\ (forall query trace code err w1,
        BindQuery ctx = inr query ->
        locate srv tracing_exclusive query (initial h b)
        = (Some (trace, code, Some err), w1) ->
        serve srv ctx h b = (Some (code, Some err), w1)
        /\ count_GetTrace (calls w1) = 0%nat
        /\ written w1 = None)
  /\ (forall code err,
        fst (serve srv ctx h b) = Some (code, Some err) ->
        let res := serve srv ctx h b in
        written (snd res) = None
        /\ (backend (snd res), heap (snd res))
           = store_replay (spanReader srv) (calls (snd res)) (b, h)
        /\ exists o, outcome res = Some o
                     /\ o ∈ [ValidationFailure; UnknownCluster; NoMatch;
                              AmbiguousMatch; StoreFailure]).
Proof.
  split; [|split].
  - intros query timestamp trace b1 h1 Hbind Hc Hr Hn Hknown Hparse Hfind Hfetch.
    pose proof (findTrace_emptyParam_false query Hc Hr Hn) as Hempty.
    apply hasCluster_iff in Hknown.
    by_path serve_Served; try (simpl in *; lia); simpl_world.
    + eexists _, _. split; [by left|].
      repeat split. apply snapshot_pruneTrace.
    + match goal with
      | Hs : Spans _ = _ :: _, Hre : handleTrace_refetch _ _ = true |- _ =>
          destruct (Hfetch _ _ Hs Hre) as (t' & b2' & h2' & Hget)
      end.
      congruence.
    + eexists _, _. split.
      { right. split; [done|]. eauto. }
      repeat split. apply snapshot_pruneTrace.
  - intros query trace code err w1 Hbind Hloc.
    split.
    { unfold resolve, handleTrace. rewrite Hbind. run_request.
      by rewrite Hloc. }
    destruct (locate_effects _ _ _ _ _ _ Hloc) as [Hw [Hcalls|[p Hcalls]]];
      rewrite Hw, Hcalls; done.
  - intros code err. cbn zeta.
    by_path serve_Served; simpl_world; intros Hfail; try discriminate;
      unfold store_replay; cbn [fold_left store_step];
      repeat (cbn [fst snd];
              match goal with
              | H : ?x = (_, _, _) |- context [?x] => rewrite H
              end);
      (split; [done|]; split; [done|]);
      eexists; (split; [cbv; reflexivity|]);
      repeat first [apply list_elem_of_here | apply list_elem_of_further].
Qed.

End Pipeline.

(* ================================================================== *)
(** * The properties on the concrete server                            *)
(* ================================================================== *)

Import Fixture.

Local Abbreviation on_fixture thm :=
  (thm Map_unicode_ToLower EqualFold_hasUnicode time_Parse).

(** cluster=prod with an empty resource: refused before any store call. *)
Lemma empty_param_no_store_call_witness :
  let res := run (inr [with_logs; other]) (inr full)
               (query "prod" "" "default" "audit") live in
  outcome res = Some ValidationFailure /\ calls (snd res) = [].
Proof.
  destruct (on_fixture (@empty_param_no_store_call unit)
              (srv (inr [with_logs; other]) (inr full))
              (request (query "prod" "" "default" "audit") live)
              (query "prod" "" "default" "audit") h0 tt)
    as (_ & _ & Hout & _ & Hcalls & _).
  - reflexivity.
  - right; left; reflexivity.
  - split; assumption.
Defined.



(** Two traces match cluster=prod, resource=pods, name=foo-123. *)
Lemma multiple_traces_are_an_error_witness :
  let res := run (inr [with_logs; other]) (inr full)
               (query "prod" "pods" "" "audit") live in
  outcome res = Some AmbiguousMatch
  /\ written (snd res) = None
  /\ count_GetTrace (calls (snd res)) = 0%nat.
Proof.
  pose (q := query "prod" "pods" "" "audit").
  destruct (on_fixture (@multiple_traces_are_an_error unit)
              (srv (inr [with_logs; other]) (inr full))
              (request q live) h0 tt
              context.Background (parameters_of tracing_exclusive q t_10_05)
              [with_logs; other] tt h0)
    as (_ & _ & Hout & _ & Hwritten & Hcalls & _).
  - apply list_elem_of_here.
  - reflexivity.
  - simpl; lia.
  - subst q. unfold run. cbn zeta. rewrite Hcalls. repeat split; assumption.
Defined.

(** The query built for cluster=prod, resource=pods, namespace=default. *)
Lemma trace_query_from_identity_witness :
  let q := query "prod" "pods" "default" "audit" in
  let p := parameters_of tracing_exclusive q t_10_05 in
  ServiceName p = "tracing (exclusive)"
  /\ OperationName p = "prod"
  /\ Tags p !! "resource" = Some "pods"
  /\ Tags p !! "name" = Some "foo-123"
  /\ Tags p !! "namespace" = Some "default"
  /\ (StartTimeMin p, StartTimeMax p) = bucket t_10_05.
Proof.
  pose (q := query "prod" "pods" "default" "audit").
  destruct (on_fixture (@trace_query_from_identity unit)
              (srv (inr [with_logs]) (inr full)) (request q live) h0 tt
              context.Background (parameters_of tracing_exclusive q t_10_05))
    as (q' & t' & Hbind & Hparse & Hp & Hservice & Hop & Hres & Hname & Hns
        & _ & _ & Hwindow & _).
  - apply list_elem_of_here.
  - injection Hbind as <-. injection Hparse as <-.
    repeat split; assumption.
Defined.

(** Every call of a refetching request is given the background context. *)
Lemma store_calls_use_background_witness :
  let res := run (inr [shallow]) (inr full)
               (query "prod" "pods" "" "audit") cancelled in
  Forall (fun call => call_context call = context.Background) (calls (snd res))
  /\ length (calls (snd res)) = 2%nat.
Proof.
  pose (q := query "prod" "pods" "" "audit").
  destruct (on_fixture (@store_calls_use_background unit)
              (srv (inr [shallow]) (inr full)) (request q cancelled) h0 tt)
    as [Hcalls _].
  split; [|reflexivity].
  apply Forall_forall. intros call Hin.
  destruct (Hcalls call Hin) as (Hbg & _). exact Hbg.
Defined.

(** Counterexample to C8 without its amendment: the request context is cancelled, the reader would
    refuse a cancelled context, and yet both store calls are made, with a
    context that is not the one of the request, and the request succeeds. *)
Lemma request_context_not_propagated :
  let q := query "prod" "pods" "" "audit" in
  let ctx := request q cancelled in
  let res := run (inr [shallow]) (inr full) q cancelled in
  context.Done (Request_Context ctx) = true
  /\ calls (snd res)
     = [Call_FindTraces context.Background
          (parameters_of tracing_exclusive q t_10_05);
        Call_GetTrace context.Background (mkTraceID 0 8)]
  /\ Forall (fun call => call_context call <> Request_Context ctx)
       (calls (snd res))
  /\ fst res = Some (0%Z, None)
  /\ exists body, outcome res = Some (Success body).
Proof.
  cbn zeta. split; [reflexivity|]. split; [reflexivity|].
  split; [repeat constructor; discriminate|].
  split; [reflexivity|]. eexists. reflexivity.
Qed.

(** A shallow trace is refetched once, by the trace ID of its first span;
    a trace with logs is not. *)
Lemma refetch_policy_witness :
  (let res := run (inr [shallow]) (inr full)
                (query "prod" "pods" "" "audit") live in
   count_GetTrace (calls (snd res)) = 1%nat
   /\ written (snd res)
      = Some (200%Z, snapshot (pruneTrace full "audit" h0) full))
  /\ (let res := run (inr [with_logs]) (inl unavailable)
                   (query "prod" "pods" "" "audit") live in
      count_GetTrace (calls (snd res)) = 0%nat
      /\ written (snd res)
         = Some (200%Z, snapshot (pruneTrace with_logs "audit" h0) with_logs)).
Proof.
  pose (q := query "prod" "pods" "" "audit").
  pose (w1 := record_call
                (Call_FindTraces context.Background
                   (parameters_of tracing_exclusive q t_10_05))
                tt h0 (initial h0 tt)).
  split.
  - destruct (on_fixture (@refetch_policy unit)
                (srv (inr [shallow]) (inr full)) (request q live) h0 tt)
      as [Hlocated _].
    destruct (Hlocated q shallow w1) as [Hrefetch _];
      [reflexivity | reflexivity |].
    destruct Hrefetch as (span0 & rest & r & b2 & h2 & Hspans & Hget & _
                          & Hcount & Hres).
    + discriminate.
    + repeat constructor.
    + injection Hspans as <- <-. injection Hget as <- <- <-.
      destruct Hres as (_ & Hwritten & _). split; assumption.
  - destruct (on_fixture (@refetch_policy unit)
                (srv (inr [with_logs]) (inl unavailable)) (request q live) h0 tt)
      as [Hlocated _].
    destruct (Hlocated q with_logs w1) as [_ Hkeep];
      [reflexivity | reflexivity |].
    destruct Hkeep as (_ & Hcount & _ & Hwritten & _).
    + right. left. discriminate.
    + split; assumption.
Defined.

(** One trace matches and, being shallow, is fetched in full: success with
    the fetched trace pruned to the category. *)
Lemma single_match_is_success_witness :
  let res := run (inr [shallow]) (inr full)
               (query "PROD" "pods" "default" "audit") live in
  fst res = Some (0%Z, None)
  /\ outcome res = Some (Success (snapshot (pruneTrace full "audit" h0) full)).
Proof.
  pose (q := query "PROD" "pods" "default" "audit").
  destruct (on_fixture (@single_match_is_success unit)
              (srv (inr [shallow]) (inr full)) (request q live) h0 tt)
    as [Hsuccess _].
  destruct (Hsuccess q t_10_05 shallow tt h0)
    as (working & hw & Hwork & Hret & Hout & _).
  - reflexivity.
  - discriminate.
  - discriminate.
  - discriminate.
  - apply Exists_cons_tl, Exists_cons_hd. reflexivity.
  - reflexivity.
  - reflexivity.
  - intros span0 rest _ _. exists full, tt, h0. reflexivity.
  - destruct Hwork as [(Hno & _)|(_ & span0 & rest & b2 & _ & Hget)].
    + discriminate.
    + injection Hget as <- _ <-. split; assumption.
Defined.

(** Counterexample to C1 without its amendment: the identity is valid, the cluster is listed, the
    timestamp parses and the tag query returns exactly one trace, but the
    trace is shallow and the fetch by trace ID fails: status 500. *)
Lemma single_match_counterexample :
  let q := query "prod" "pods" "default" "audit" in
  let s := srv (inr [shallow]) (inl unavailable) in
  let res := run (inr [shallow]) (inl unavailable) q live in
  Cluster q <> "" /\ Resource q <> "" /\ Name q <> ""
  /\ Exists (fun known =>
               cluster_matches Map_unicode_ToLower EqualFold_hasUnicode
                 known (Cluster q) = true) (List (clusterList s))
  /\ time_Parse time_RFC3339 (Ts q) = inr t_10_05
  /\ FindTraces (spanReader s) context.Background
       (parameters_of tracing_exclusive q t_10_05) tt h0
     = (inr [shallow], tt, h0)
  /\ fst res = Some (500%Z,
                     Some (fmt_Errorf "failed to find trace ids %w"
                             [arg_error unavailable]))
  /\ outcome res = Some StoreFailure
  /\ written (snd res) = None
  /\ forall body, outcome res <> Some (Success body).
Proof.
  cbn zeta.
  split; [discriminate|]. split; [discriminate|]. split; [discriminate|].
  split; [apply Exists_cons_tl, Exists_cons_hd; reflexivity|].
  repeat split. intros body. discriminate.
Qed.

(* ================================================================== *)
(** * Further properties of the request pipeline                       *)
(* ================================================================== *)

Section Failures.

Context {Backend : Type}.
Variable Map_unicode_ToLower : string -> string.
Variable EqualFold_hasUnicode : string -> string -> bool.
Variable time_Parse : string -> string -> error + GoTime.Time.

Local Abbreviation matches :=
  (cluster_matches Map_unicode_ToLower EqualFold_hasUnicode).
Local Abbreviation hasCluster :=
  (findTrace_hasCluster Map_unicode_ToLower EqualFold_hasUnicode).
Local Abbreviation serve :=
  (resolve Map_unicode_ToLower EqualFold_hasUnicode time_Parse).

Local Ltac paths :=
  by_path (@serve_Served Backend Map_unicode_ToLower EqualFold_hasUnicode time_Parse).

Implicit Types (srv : server Backend) (ctx : GinContext)
  (query : traceQuery) (h : Heap) (b : Backend) (w : World Backend).

(** X1. When the query parameters cannot be bound, the request is answered
    with status 400 and the category InvalidParam, the error wraps the
    binding error, and nothing else happens: no store call, nothing
    rendered, no span changed. *)
Theorem bind_failure_is_invalid_param srv ctx err h b :
  BindQuery ctx = inl err ->
  let res := serve srv ctx h b in
  fst res = Some (400%Z, Some (fmt_Errorf "invalid param %w" [arg_error err]))
  /\ metric_Error (snd res) = Some "InvalidParam"
  /\ calls (snd res) = []
  /\ written (snd res) = None
  /\ heap (snd res) = h /\ backend (snd res) = b.
Proof.
  intros Hbind. paths; try congruence. repeat split.
Qed.

(** X2. A request with non-empty cluster, resource and name and a listed
    cluster whose timestamp does not parse is answered with status 400 and
    the category InvalidTimestamp; the error wraps the parse error and the
    span reader observes no call. *)
Theorem invalid_timestamp_no_store_call srv ctx query err h b :
  BindQuery ctx = inr query ->
  Cluster query <> "" -> Resource query <> "" -> Name query <> "" ->
  Exists (fun known => matches known (Cluster query) = true)
    (List (clusterList srv)) ->
  time_Parse time_RFC3339 (Ts query) = inl err ->
  let res := serve srv ctx h b in
  fst res = Some (400%Z,
                  Some (fmt_Errorf "invalid timestamp for ts param %w"
                          [arg_error err]))
  /\ metric_Error (snd res) = Some "InvalidTimestamp"
  /\ calls (snd res) = []
  /\ written (snd res) = None
  /\ heap (snd res) = h /\ backend (snd res) = b.
Proof.
  intros Hbind Hc Hr Hn Hknown Hparse.
  pose proof (findTrace_emptyParam_false query Hc Hr Hn) as Hempty.
  apply (hasCluster_iff Map_unicode_ToLower EqualFold_hasUnicode time_Parse) in Hknown.
  paths; try congruence. repeat split.
Qed.

(** X3. When the tag query itself fails, the request is answered with
    status 500 and the category TraceError, and the error wraps the error
    of the span reader.  The tag query is not retried and no fetch by trace
    ID follows: the span reader has observed that one call.  Nothing is
    rendered, and the store and the heap are as that call left them. *)
Theorem find_failure_is_store_failure srv ctx h b c p err b1 h1 :
  Call_FindTraces c p ∈ calls (snd (serve srv ctx h b)) ->
  FindTraces (spanReader srv) c p b h = (inl err, b1, h1) ->
  let res := serve srv ctx h b in
  fst res = Some (500%Z,
                  Some (fmt_Errorf "failed to find trace ids %w" [arg_error err]))
  /\ metric_Error (snd res) = Some "TraceError"
  /\ calls (snd res) = [Call_FindTraces c p]
  /\ written (snd res) = None
  /\ heap (snd res) = h1 /\ backend (snd res) = b1.
Proof.
  intros Hin Hfind. revert Hin.
  paths; intros Hin; simpl_world; split_calls Hin;
    repeat match goal with
      | H1 : ?x = _, H2 : ?x = _ |- _ => rewrite H1 in H2; simplify_eq
      end.
  repeat split.
Qed.

(** X4. When the tag query is answered with no trace, the request is
    answered with status 404 and the category NoTraceMatch; no fetch by
    trace ID follows and nothing is rendered. *)
Theorem no_trace_is_not_found srv ctx h b c p b1 h1 :
  Call_FindTraces c p ∈ calls (snd (serve srv ctx h b)) ->
  FindTraces (spanReader srv) c p b h = (inr [], b1, h1) ->
  let res := serve srv ctx h b in
  fst res = Some (404%Z,
                  Some (fmt_Errorf "could not find trace ids that match query" []))
  /\ metric_Error (snd res) = Some "NoTraceMatch"
  /\ outcome res = Some NoMatch
  /\ calls (snd res) = [Call_FindTraces c p]
  /\ written (snd res) = None
  /\ heap (snd res) = h1 /\ backend (snd res) = b1.
Proof.
  intros Hin Hfind. revert Hin.
  paths; intros Hin; simpl_world; split_calls Hin;
    repeat match goal with
      | H1 : ?x = _, H2 : ?x = _ |- _ => rewrite H1 in H2; simplify_eq
      end;
    try (simpl in *; lia).
  repeat split.
Qed.


(** X6. The calls a request makes to the span reader are: none; or the tag
    query alone; or the tag query followed by one fetch by trace ID.  The
    span reader is called only after the parameters were bound, cluster,
    resource and name were found non-empty, the cluster was found in the
    listing and the timestamp parsed. *)
Theorem store_call_protocol srv ctx h b :
  let cs := calls (snd (serve srv ctx h b)) in
  (cs = []
   \/ (exists p, cs = [Call_FindTraces context.Background p])
   \/ (exists p id, cs = [Call_FindTraces context.Background p;
                          Call_GetTrace context.Background id]))
  /\ (cs <> [] ->
      exists query timestamp,
        BindQuery ctx = inr query
        /\ Cluster query <> "" /\ Resource query <> "" /\ Name query <> ""
        /\ Exists (fun known => matches known (Cluster query) = true)
             (List (clusterList srv))
        /\ time_Parse time_RFC3339 (Ts query) = inr timestamp
        /\ head cs = Some (Call_FindTraces context.Background
                             (parameters_of tracing_exclusive query timestamp))).
Proof.
  cbn zeta.
  paths; simpl_world;
    (split; [first [ by left | right; left; eexists; reflexivity
                   | right; right; eexists _, _; reflexivity ] |]);
    intros Hne; try done;
    match goal with
    | Hb : BindQuery ctx = inr ?q, Hp : time_Parse _ _ = inr ?t |- _ =>
        exists q, t
    end;
    match goal with
    | He : findTrace_emptyParam _ = false |- _ =>
        apply not_true_iff_false in He; rewrite findTrace_emptyParam_iff in He
    end;
    match goal with
    | Hc : hasCluster srv _ = true |- _ =>
        apply (hasCluster_iff Map_unicode_ToLower EqualFold_hasUnicode time_Parse)
          in Hc
    end;
    repeat split; try done; intros ?; tauto.
Qed.


(** The tags built from a non-empty resource and name have no empty value. *)
Lemma findTrace_tags_values resource name namespace k v :
  resource <> "" -> name <> "" ->
  findTrace_tags resource name namespace !! k = Some v -> v <> "".
Proof.
  intros Hr Hn Hk.
  destruct (findTrace_tags_lookup resource name namespace)
    as (Hres & Hname & Hns & Hother & _).
  destruct (decide (k = "resource")) as [->|Hk1].
  { rewrite Hres in Hk. by injection Hk as <-. }
  destruct (decide (k = "name")) as [->|Hk2].
  { rewrite Hname in Hk. by injection Hk as <-. }
  destruct (decide (k = "namespace")) as [->|Hk3].
  { rewrite Hns in Hk. case_decide; [discriminate|]. by injection Hk as <-. }
  rewrite Hother in Hk by done. discriminate.
Qed.

(** X15. A tag query that reaches the span reader never has an empty
    service or operation name and never carries a tag with an empty
    value. *)
Theorem issued_query_has_no_empty_value srv ctx h b c p :
  Call_FindTraces c p ∈ calls (snd (serve srv ctx h b)) ->
  ServiceName p <> "" /\ OperationName p <> ""
  /\ forall k v, Tags p !! k = Some v -> v <> "".
Proof.
  paths; intros Hin; simpl_world; split_calls Hin;
    match goal with
    | He : findTrace_emptyParam _ = false |- _ =>
        apply not_true_iff_false in He; rewrite findTrace_emptyParam_iff in He
    end;
    (split; [discriminate|]; split; [cbn; tauto|]);
    intros k v Hk; apply (findTrace_tags_values _ _ _ _ _) in Hk; tauto.
Qed.

(** X8. Whatever a request renders, it renders with status 200 and returns
    a nil error; and when the category of the request is not empty, every
    log of every rendered span carries the category key. *)
Theorem rendered_logs_carry_category srv ctx query h b code body :
  BindQuery ctx = inr query ->
  written (snd (serve srv ctx h b)) = Some (code, body) ->
  code = 200%Z
  /\ fst (serve srv ctx h b) = Some (0%Z, None)
  /\ (SpanType query <> "" ->
      Forall (fun span => Forall (log_has_key (SpanType query)) (Logs span)) body).
Proof.
  intros Hbind. paths; simpl_world; intros Hw; simplify_eq;
    (split; [done|]; split; [done|]); intros Hst;
    rewrite snapshot_pruneTrace, decide_False by done;
    apply Forall_map, Forall_forall; intros span _;
    apply Forall_forall; intros log Hlog;
    unfold prune_span, set_Logs in Hlog; cbn [Logs] in Hlog;
    apply list_elem_of_filter in Hlog; tauto.
Qed.

(** X9. A request changes the span objects of the store only by pruning:
    compared with the heap the calls to the span reader left, every span
    keeps its trace ID and operation name and its logs are an ordered
    subsequence of what they were; a span is either unchanged or pruned to
    the non-empty category of the request.  The state of the store is what
    the calls left. *)
Theorem spans_only_lose_logs srv ctx h b p :
  let res := serve srv ctx h b in
  let left_by_store := store_replay (spanReader srv) (calls (snd res)) (b, h) in
  let before := snd left_by_store p in
  let now := heap (snd res) p in
  backend (snd res) = fst left_by_store
  /\ Span_TraceID now = Span_TraceID before
  /\ model.OperationName now = model.OperationName before
  /\ sublist (Logs now) (Logs before)
  /\ (now = before
      \/ exists query,
           BindQuery ctx = inr query /\ SpanType query <> ""
           /\ now = prune_span (SpanType query) before).
Proof.
  cbn zeta.
  paths; simpl_world;
    unfold store_replay; cbn [fold_left store_step];
    repeat (cbn [fst snd];
            match goal with
            | H : ?x = (_, _, _) |- context [?x] => rewrite H
            end);
    cbn [fst snd];
    try (repeat split; first [done | by left]);
    (split; [done|]);
    rewrite pruneTrace_lookup;
    match goal with
    | |- context [decide (SpanType ?q = "")] =>
        destruct (decide (SpanType q = "")) as [Hst|Hst];
        [ repeat split; first [done | by left]
        | match goal with
          | |- context [decide (p ∈ ?l)] =>
              destruct (decide (p ∈ l));
              [ split; [done|]; split; [done|];
                split; [apply sublist_filter|];
                right; exists q; done
              | repeat split; first [done | by left] ]
          end ]
    end.
Qed.

(** X10. The category of a request only selects what is pruned: two
    requests that differ in [span_type] alone return the same status and
    error, make the same calls to the span reader, leave the store in the
    same state and the metric with the same label, and render the same
    spans up to their logs. *)
Theorem span_type_only_prunes srv rc query spanType h b :
  let res1 := serve srv {| BindQuery := inr query; Request_Context := rc |} h b in
  let res2 := serve srv {| BindQuery := inr (with_SpanType query spanType);
                           Request_Context := rc |} h b in
  let shape (x : Z * list Span) := (fst x, map (fun s => set_Logs s []) (snd x)) in
  fst res1 = fst res2
  /\ calls (snd res1) = calls (snd res2)
  /\ backend (snd res1) = backend (snd res2)
  /\ metric_Error (snd res1) = metric_Error (snd res2)
  /\ shape <$> written (snd res1) = shape <$> written (snd res2).
Proof.
  cbn zeta. unfold resolve, handleTrace. cbn [BindQuery].
  change (findTrace Map_unicode_ToLower EqualFold_hasUnicode time_Parse srv
            tracing_exclusive (with_SpanType query spanType))
    with (findTrace Map_unicode_ToLower EqualFold_hasUnicode time_Parse srv
            tracing_exclusive query).
  run_request.
  destruct (findTrace Map_unicode_ToLower EqualFold_hasUnicode time_Parse srv
              tracing_exclusive query (initial h b))
    as [[[[[trace|] code] [err|]]|] w1]; try (repeat split; done).
  destruct (handleTrace_refetch (heap w1) trace).
  - destruct (Spans trace) as [|span0 rest]; [repeat split; done|].
    destruct (GetTrace (spanReader srv) context.Background
                (Span_TraceID (heap w1 span0)) (backend w1) (heap w1))
      as [[[err|trace'] b2] h2]; [repeat split; done|].
    rewrite !finish_eq. simpl_world. repeat split; try done.
    cbn. f_equal. f_equal. rewrite !snapshot_pruneTrace.
    repeat case_decide; rewrite ?map_map; apply map_ext; intros s; done.
  - rewrite !finish_eq. simpl_world. repeat split; try done.
    cbn. f_equal. f_equal. rewrite !snapshot_pruneTrace.
    repeat case_decide; rewrite ?map_map; apply map_ext; intros s; done.
Qed.

End Failures.

(* ================================================================== *)
(** * Further properties of pruneTrace                                 *)
(* ================================================================== *)

(** X16. Pruning by one category and then by another gives, at every span,
    the same result in either order; when both categories are non-empty a
    span of the trace is left with the logs that carry both keys, in their
    original order. *)
Theorem pruneTrace_twice (trace : Trace) (c1 c2 : string) (h : Heap) (p : SpanPtr) :
  pruneTrace trace c2 (pruneTrace trace c1 h) p
  = pruneTrace trace c1 (pruneTrace trace c2 h) p
  /\ (c1 <> "" -> c2 <> "" -> p ∈ Spans trace ->
      Logs (pruneTrace trace c2 (pruneTrace trace c1 h) p)
      = filter (fun log => log_has_key c1 log /\ log_has_key c2 log)
          (Logs (h p))).
Proof.
  assert (forall a b s, prune_span a (prune_span b s)
                        = prune_span b (prune_span a s)) as Hcomm.
  { intros a b s. unfold prune_span, set_Logs; cbn. f_equal.
    rewrite !list_filter_filter. apply list_filter_iff. tauto. }
  split.
  - rewrite !pruneTrace_lookup. repeat case_decide; first [done | apply Hcomm].
  - intros H1 H2 Hin.
    rewrite !pruneTrace_lookup.
    repeat case_decide; try tauto.
    unfold prune_span, set_Logs; cbn [Logs].
    rewrite list_filter_filter. apply list_filter_iff. tauto.
Qed.

(** X17. What [pruneTrace] does depends only on which span objects the
    trace points to, not on their order in [trace.Spans] or on how often a
    pointer occurs there. *)
Theorem pruneTrace_same_spans (trace1 trace2 : Trace) (spanType : string)
    (h : Heap) (p : SpanPtr) :
  (forall q, q ∈ Spans trace1 <-> q ∈ Spans trace2) ->
  pruneTrace trace1 spanType h p = pruneTrace trace2 spanType h p.
Proof.
  intros Hsame. rewrite !pruneTrace_lookup.
  destruct (decide (p ∈ Spans trace1)) as [Hin|Hnin].
  - by rewrite (decide_True (P := p ∈ Spans trace2)) by (by apply Hsame).
  - by rewrite (decide_False (P := p ∈ Spans trace2))
      by (by rewrite <- Hsame).
Qed.

(* ================================================================== *)
(** * Further properties of the time window                            *)
(* ================================================================== *)

(** X14. The windows tile the time line: the start of every window is a
    multiple of 30 minutes since the zero time, and a second timestamp
    falls in the window of a first exactly when both have the same
    window. *)
Theorem bucket_tiles (t t' : GoTime.Time) :
  (fst (bucket t) mod (30 * GoTime.Minute) = 0)%Z
  /\ ((fst (bucket t) <= t' < snd (bucket t))%Z <-> bucket t' = bucket t).
Proof.
  assert (0 < GoTime.Minute * 30)%Z as Hpos by (rewrite thirty_minutes; lia).
  split.
  - rewrite Z.mul_comm. unfold bucket; cbn [fst]. by apply Truncate_aligned.
  - pose proof (Truncate_bounds t _ Hpos) as Hb.
    pose proof (Truncate_bounds t' _ Hpos) as Hb'.
    pose proof (Truncate_aligned t _ Hpos) as Ha.
    pose proof (Truncate_aligned t' _ Hpos) as Ha'.
    unfold bucket; cbn [fst snd]. unfold GoTime.Add.
    set (d := (GoTime.Minute * 30)%Z) in *.
    set (s := GoTime.Truncate t d) in *.
    set (s' := GoTime.Truncate t' d) in *.
    split.
    + intros Hin.
      assert (s' = s) as ->; [|done].
      apply Z.mod_divide in Ha; [|lia]. apply Z.mod_divide in Ha'; [|lia].
      destruct Ha as [k Hk]. destruct Ha' as [k' Hk'].
      assert (k' = k) by nia. congruence.
    + intros Heq. injection Heq as Heq _. lia.
Qed.

(* ================================================================== *)
(** * Further properties of the cluster comparison                     *)
(* ================================================================== *)

Lemma byte_val_inj (a b : ascii) :
  GoStrings.byte_val a = GoStrings.byte_val b -> a = b.
Proof.
  unfold GoStrings.byte_val. intros H.
  rewrite <- (ascii_N_embedding a), <- (ascii_N_embedding b). by rewrite H.
Qed.

Lemma byte_val_bound (a : ascii) : (GoStrings.byte_val a < 256)%N.
Proof. apply N_ascii_bounded. Qed.

Lemma isUpperASCII_spec (c : ascii) :
  GoStrings.isUpperASCII c = true
  <-> (65 <= GoStrings.byte_val c <= 90)%N.
Proof.
  unfold GoStrings.isUpperASCII.
  rewrite andb_true_iff, !N.leb_le. reflexivity.
Qed.

Lemma addCaseOffset_val (c : ascii) :
  GoStrings.isUpperASCII c = true ->
  GoStrings.byte_val (GoStrings.addCaseOffset c)
  = (GoStrings.byte_val c + 32)%N.
Proof.
  intros Hup%isUpperASCII_spec. unfold GoStrings.addCaseOffset.
  change (GoStrings.byte_val "a" - GoStrings.byte_val "A")%N with 32%N.
  unfold GoStrings.byte_val at 1.
  rewrite N_ascii_embedding by (apply N.mod_lt; lia).
  apply N.mod_small. lia.
Qed.

Lemma isUpperASCII_cases (c : ascii) :
  (GoStrings.isUpperASCII c = true
   /\ (65 <= GoStrings.byte_val c <= 90)%N
   /\ GoStrings.byte_val (GoStrings.addCaseOffset c)
      = (GoStrings.byte_val c + 32)%N)
  \/ (GoStrings.isUpperASCII c = false
      /\ (GoStrings.byte_val c < 65 \/ 90 < GoStrings.byte_val c)%N).
Proof.
  destruct (GoStrings.isUpperASCII c) eqn:Hup.
  - left. split; [done|]. split; [by apply isUpperASCII_spec|].
    by apply addCaseOffset_val.
  - right. split; [done|].
    apply not_true_iff_false in Hup. rewrite isUpperASCII_spec in Hup. lia.
Qed.

Section FoldingMore.

Variable Map_unicode_ToLower : string -> string.
Variable EqualFold_hasUnicode : string -> string -> bool.

Local Abbreviation ToLower := (GoStrings.ToLower Map_unicode_ToLower).
Local Abbreviation EqualFold := (GoStrings.EqualFold EqualFold_hasUnicode).
Local Abbreviation matches :=
  (cluster_matches Map_unicode_ToLower EqualFold_hasUnicode).
Local Abbreviation lower_byte c :=
  (if GoStrings.isUpperASCII c%char then GoStrings.addCaseOffset c%char
   else c%char).

Lemma lor_below_RuneSelf (x y : N) :
  (x < 128)%N -> (y < 128)%N -> (N.lor x y < 128)%N.
Proof.
  intros Hx Hy.
  assert (forall z, (z < 128)%N -> (N.log2 z < 7)%N) as Hlog.
  { intros z Hz. destruct (N.eq_dec z 0%N) as [->|Hz0]; [done|].
    apply N.log2_lt_pow2; [lia | exact Hz]. }
  destruct (N.eq_dec (N.lor x y) 0%N) as [->|Hne]; [lia|].
  change 128%N with (2 ^ 7)%N. apply N.log2_lt_pow2; [lia|].
  rewrite N.log2_lor. apply N.max_lub_lt; by apply Hlog.
Qed.

(** One step of the ASCII path of [EqualFold]. *)
Lemma EqualFold_step (a b : ascii) (s t : string) :
  (GoStrings.byte_val a <? GoStrings.RuneSelf)%N = true ->
  (GoStrings.byte_val b <? GoStrings.RuneSelf)%N = true ->
  EqualFold (String a s) (String b t)
  = if Ascii.eqb (lower_byte a) (lower_byte b) then EqualFold s t else false.
Proof.
  intros Ha%N.ltb_lt Hb%N.ltb_lt. unfold GoStrings.RuneSelf in *.
  cbn [GoStrings.EqualFold].
  pose proof (lor_below_RuneSelf _ _ Ha Hb) as Hlor.
  destruct (N.leb_spec GoStrings.RuneSelf
              (N.lor (GoStrings.byte_val a) (GoStrings.byte_val b)))
    as [Hge|_]; [unfold GoStrings.RuneSelf in Hge; lia|].
  destruct (isUpperASCII_cases a) as [(Ea & Ra & Oa)|(Ea & Ra)];
    destruct (isUpperASCII_cases b) as [(Eb & Rb & Ob)|(Eb & Rb)];
    rewrite ?Ea, ?Eb;
    match goal with
    | |- context [Ascii.eqb ?x ?y] =>
        destruct (Ascii.eqb_spec x y) as [Heq|Hne];
        [ apply (f_equal GoStrings.byte_val) in Heq
        | assert (GoStrings.byte_val x <> GoStrings.byte_val y) as Hval
            by (intros Hv; by apply Hne, byte_val_inj); clear Hne ]
    end;
    rewrite ?Oa, ?Ob in *;
    destruct (N.eqb_spec (GoStrings.byte_val b) (GoStrings.byte_val a));
    try done; try lia;
    destruct (N.ltb_spec (GoStrings.byte_val b) (GoStrings.byte_val a));
    cbv beta iota zeta; rewrite ?Ea, ?Eb; cbn [andb]; rewrite ?Oa, ?Ob;
    try done;
    try match goal with
        | |- context [N.eqb ?x ?y] => destruct (N.eqb_spec x y)
        end;
    first [done | lia].
Qed.

(** On ASCII strings [EqualFold] compares the lowered strings. *)
Lemma EqualFold_ascii (s t : string) :
  GoStrings.isASCII s = true -> GoStrings.isASCII t = true ->
  EqualFold s t
  = String.eqb (GoStrings.ToLower_ascii s) (GoStrings.ToLower_ascii t).
Proof.
  revert t. induction s as [|a s IH]; intros [|b t] Hs Ht; try done.
  cbn [GoStrings.isASCII] in Hs, Ht.
  apply andb_true_iff in Hs as [Ha Hs]. apply andb_true_iff in Ht as [Hb Ht].
  rewrite EqualFold_step by done.
  cbn [GoStrings.ToLower_ascii String.eqb]. by rewrite IH.
Qed.

Lemma ToLower_ascii_idemp (s : string) :
  GoStrings.ToLower_ascii (GoStrings.ToLower_ascii s) = GoStrings.ToLower_ascii s.
Proof.
  induction s as [|c s IH]; [done|].
  cbn [GoStrings.ToLower_ascii]. rewrite IH. f_equal.
  destruct (GoStrings.isUpperASCII c) eqn:Hup; [|by rewrite Hup].
  destruct (GoStrings.isUpperASCII (GoStrings.addCaseOffset c)) eqn:Hup'; [|done].
  apply isUpperASCII_spec in Hup'. rewrite addCaseOffset_val in Hup' by done.
  apply isUpperASCII_spec in Hup. lia.
Qed.

Lemma matches_ascii (s t : string) :
  GoStrings.isASCII s = true -> GoStrings.isASCII t = true ->
  matches s t
  = String.eqb (GoStrings.ToLower_ascii s) (GoStrings.ToLower_ascii t).
Proof.
  intros Hs Ht. unfold cluster_matches.
  rewrite !(ToLower_ascii_path Map_unicode_ToLower) by done.
  rewrite EqualFold_ascii by (by apply ToLower_ascii_isASCII).
  by rewrite !ToLower_ascii_idemp.
Qed.

(** X11. On names of ASCII bytes the comparison of [findTrace] holds
    exactly when the two names have the same byte-wise lower-case form.  So
    it is reflexive, symmetric and transitive there: the known cluster
    names fall into classes of names that differ in letter case only. *)
Theorem cluster_matches_on_ascii (a b c : string) :
  GoStrings.isASCII a = true -> GoStrings.isASCII b = true ->
  GoStrings.isASCII c = true ->
  (matches a b = true
   <-> GoStrings.ToLower_ascii a = GoStrings.ToLower_ascii b)
  /\ matches a a = true
  /\ matches a b = matches b a
  /\ (matches a b = true -> matches b c = true -> matches a c = true).
Proof.
  intros Ha Hb Hc.
  rewrite !matches_ascii by done.
  split; [apply String.eqb_eq|]. split; [apply String.eqb_refl|].
  split; [apply String.eqb_sym|].
  rewrite !String.eqb_eq. congruence.
Qed.

(** X12. On names of ASCII bytes the two calls of [strings.ToLower] in the
    comparison change nothing: [strings.EqualFold] on the names as they are
    gives the same answer. *)
Theorem ToLower_is_redundant_on_ascii (known cluster : string) :
  GoStrings.isASCII known = true -> GoStrings.isASCII cluster = true ->
  matches known cluster = EqualFold known cluster.
Proof.
  intros Hk Hc. by rewrite matches_ascii, EqualFold_ascii.
Qed.

End FoldingMore.

(** X13. Whether a cluster is found depends only on which names the
    listing holds, not on their order or on repetitions. *)
Theorem hasCluster_same_names {Backend}
    (Map_unicode_ToLower : string -> string)
    (EqualFold_hasUnicode : string -> string -> bool)
    (time_Parse : string -> string -> error + GoTime.Time)
    (srv1 srv2 : server Backend) (cluster : string) :
  (forall known, known ∈ List (clusterList srv1)
                 <-> known ∈ List (clusterList srv2)) ->
  findTrace_hasCluster Map_unicode_ToLower EqualFold_hasUnicode srv1 cluster
  = findTrace_hasCluster Map_unicode_ToLower EqualFold_hasUnicode srv2 cluster.
Proof.
  intros Hsame. apply eq_true_iff_eq.
  rewrite !(hasCluster_iff Map_unicode_ToLower EqualFold_hasUnicode time_Parse).
  rewrite !Exists_exists. split; intros (known & Hin & Hm); exists known;
    (split; [by apply Hsame | done]).
Qed.

(* ================================================================== *)
(** * Properties of the route handler                                  *)
(* ================================================================== *)

Section RouteProperties.

Context {Backend : Type}.
Variable Map_unicode_ToLower : string -> string.
Variable EqualFold_hasUnicode : string -> string -> bool.
Variable time_Parse : string -> string -> error + GoTime.Time.
Variable error_Error : error -> string.

Local Abbreviation serve :=
  (resolve Map_unicode_ToLower EqualFold_hasUnicode time_Parse).
Local Abbreviation handle :=
  (route Map_unicode_ToLower EqualFold_hasUnicode time_Parse error_Error).

Local Ltac paths :=
  by_path (@serve_Served Backend Map_unicode_ToLower EqualFold_hasUnicode time_Parse).


(** X19. Every request is counted exactly once, with the start time taken
    at the beginning and the label the metric holds at the end: no label
    for a request answered with status 200, and otherwise the label of the
    failure, which fixes the status code.  The request is logged once, and
    its error is logged once exactly when it fails. *)
Theorem route_accounting (srv : server Backend) (now : GoTime.Time)
    (req : HttpRequest) (h : Heap) (b : Backend) :
  let x := handle srv now req h b in
  let info := Log_Infof (RemoteAddr req) (RawQuery req) in
  (Status x = Some 200%Z
   /\ Counted x = [(now, None)]
   /\ Logged x = [info])
  \/ (exists code label err,
        Status x = Some code
        /\ Counted x = [(now, Some label)]
        /\ Logged x = [info; Log_Error (RemoteAddr req) err]
        /\ fst (serve srv (gin req) h b) = Some (code, Some err)
        /\ (label, code)
           ∈ [("InvalidParam", 400%Z); ("EmptyParam", 400%Z);
              ("UnknownCluster", 404%Z); ("InvalidTimestamp", 400%Z);
              ("TraceError", 500%Z); ("MultiTraceMatch", 500%Z);
              ("NoTraceMatch", 404%Z)]).
Proof.
  cbn zeta. unfold route.
  paths; simpl_world;
    first [ left; repeat split; reflexivity
          | right; eexists _, _, _; repeat split;
            repeat first [apply list_elem_of_here | apply list_elem_of_further] ].
Qed.

End RouteProperties.

(* ================================================================== *)
(** * The further properties on the concrete server                    *)
(* ================================================================== *)

(** The parameters cannot be bound. *)
Lemma bind_failure_is_invalid_param_witness :
  let res := resolve Map_unicode_ToLower EqualFold_hasUnicode time_Parse
               (srv (inr [with_logs]) (inr full))
               {| BindQuery := inl (collaborator_error "bad query");
                  Request_Context := live |} h0 tt in
  metric_Error (snd res) = Some "InvalidParam" /\ calls (snd res) = [].
Proof.
  destruct (on_fixture (@bind_failure_is_invalid_param unit)
              (srv (inr [with_logs]) (inr full))
              {| BindQuery := inl (collaborator_error "bad query");
                 Request_Context := live |}
              (collaborator_error "bad query") h0 tt)
    as (_ & Hlabel & Hcalls & _).
  - reflexivity.
  - split; assumption.
Defined.

(** ts=yesterday *)
Lemma invalid_timestamp_no_store_call_witness :
  let q := {| Cluster := "prod"; Resource := "pods"; Namespace := "";
              Name := "foo-123"; Ts := "yesterday"; SpanType := "" |} in
  let res := run (inr [with_logs]) (inr full) q live in
  metric_Error (snd res) = Some "InvalidTimestamp" /\ calls (snd res) = [].
Proof.
  pose (q := {| Cluster := "prod"; Resource := "pods"; Namespace := "";
                Name := "foo-123"; Ts := "yesterday"; SpanType := "" |}).
  destruct (on_fixture (@invalid_timestamp_no_store_call unit)
              (srv (inr [with_logs]) (inr full)) (request q live) q
              (collaborator_error "parsing time: cannot parse") h0 tt)
    as (_ & Hlabel & Hcalls & _).
  - reflexivity.
  - discriminate.
  - discriminate.
  - discriminate.
  - apply Exists_cons_tl, Exists_cons_hd. reflexivity.
  - reflexivity.
  - split; assumption.
Defined.

(** The store is unavailable. *)
Lemma find_failure_is_store_failure_witness :
  let res := run (inl unavailable) (inr full)
               (query "prod" "pods" "" "audit") live in
  metric_Error (snd res) = Some "TraceError"
  /\ length (calls (snd res)) = 1%nat.
Proof.
  pose (q := query "prod" "pods" "" "audit").
  destruct (on_fixture (@find_failure_is_store_failure unit)
              (srv (inl unavailable) (inr full)) (request q live) h0 tt
              context.Background (parameters_of tracing_exclusive q t_10_05)
              unavailable tt h0)
    as (_ & Hlabel & Hcalls & _).
  - apply list_elem_of_here.
  - reflexivity.
  - subst q. unfold run. cbn zeta. rewrite Hcalls. split; [assumption | reflexivity].
Defined.

(** No trace matches. *)
Lemma no_trace_is_not_found_witness :
  let res := run (inr []) (inr full) (query "prod" "pods" "" "audit") live in
  outcome res = Some NoMatch /\ written (snd res) = None.
Proof.
  pose (q := query "prod" "pods" "" "audit").
  destruct (on_fixture (@no_trace_is_not_found unit)
              (srv (inr []) (inr full)) (request q live) h0 tt
              context.Background (parameters_of tracing_exclusive q t_10_05)
              tt h0)
    as (_ & _ & Hout & _ & Hwritten & _).
  - apply list_elem_of_here.
  - reflexivity.
  - split; assumption.
Defined.

(** A refetching request: the tag query, then the fetch by trace ID. *)
Lemma store_call_protocol_witness :
  let q := query "prod" "pods" "" "audit" in
  let cs := calls (snd (run (inr [shallow]) (inr full) q live)) in
  length cs = 2%nat
  /\ head cs = Some (Call_FindTraces context.Background
                       (parameters_of tracing_exclusive q t_10_05)).
Proof.
  pose (q := query "prod" "pods" "" "audit").
  destruct (on_fixture (@store_call_protocol unit)
              (srv (inr [shallow]) (inr full)) (request q live) h0 tt)
    as [_ Hvalid].
  destruct Hvalid as (q' & t' & Hbind & _ & _ & _ & _ & Hparse & Hhead).
  - discriminate.
  - injection Hbind as <-. injection Hparse as <-.
    split; [reflexivity | exact Hhead].
Defined.

(** What is rendered for span_type=audit carries the key audit. *)
Lemma rendered_logs_carry_category_witness :
  Forall (fun span => Forall (log_has_key "audit") (Logs span))
    (snapshot (pruneTrace with_logs "audit" h0) with_logs).
Proof.
  pose (q := query "prod" "pods" "" "audit").
  destruct (on_fixture (@rendered_logs_carry_category unit)
              (srv (inr [with_logs]) (inr full)) (request q live) q h0 tt
              200%Z (snapshot (pruneTrace with_logs "audit" h0) with_logs))
    as (_ & _ & Hlogs).
  - reflexivity.
  - reflexivity.
  - apply Hlogs. discriminate.
Defined.

(** The tags of the query for resource=pods, name=foo-123. *)
Lemma issued_query_has_no_empty_value_witness :
  let p := parameters_of tracing_exclusive (query "prod" "pods" "" "audit")
             t_10_05 in
  OperationName p <> "" /\ forall k v, Tags p !! k = Some v -> v <> "".
Proof.
  pose (q := query "prod" "pods" "" "audit").
  destruct (on_fixture (@issued_query_has_no_empty_value unit)
              (srv (inr [with_logs]) (inr full)) (request q live) h0 tt
              context.Background (parameters_of tracing_exclusive q t_10_05))
    as (_ & Hop & Htags).
  - apply list_elem_of_here.
  - split; assumption.
Defined.

(** Pruning span 0 by audit and then by k keeps the logs with both keys. *)
Lemma pruneTrace_twice_witness :
  Logs (pruneTrace aliased "k" (pruneTrace aliased "audit" h0) 0)
  = filter (fun log => log_has_key "audit" log /\ log_has_key "k" log)
      (Logs (h0 0)).
Proof.
  destruct (pruneTrace_twice aliased "audit" "k" h0 0) as [_ Hboth].
  apply Hboth; [discriminate | discriminate | apply list_elem_of_here].
Defined.

(** The spans 0 and 1, listed in two ways. *)
Lemma pruneTrace_same_spans_witness :
  pruneTrace aliased "audit" h0 0 = pruneTrace (mkTrace [1; 0]) "audit" h0 0.
Proof.
  apply (pruneTrace_same_spans aliased (mkTrace [1; 0]) "audit" h0 0).
  intros q. unfold aliased; cbn [Spans].
  rewrite !elem_of_cons, !elem_of_nil. tauto.
Defined.

(** Prod, PROD and prod. *)
Lemma cluster_matches_on_ascii_witness :
  cluster_matches Map_unicode_ToLower EqualFold_hasUnicode "Prod" "PROD" = true
  /\ cluster_matches Map_unicode_ToLower EqualFold_hasUnicode "Prod" "prod" = true.
Proof.
  destruct (cluster_matches_on_ascii Map_unicode_ToLower EqualFold_hasUnicode
              "Prod" "PROD" "prod" eq_refl eq_refl eq_refl)
    as (Hiff & _ & _ & Htrans).
  assert (cluster_matches Map_unicode_ToLower EqualFold_hasUnicode
            "Prod" "PROD" = true) as H1 by (apply Hiff; reflexivity).
  split; [exact H1|]. apply Htrans; [exact H1 | reflexivity].
Defined.

Lemma ToLower_is_redundant_on_ascii_witness :
  cluster_matches Map_unicode_ToLower EqualFold_hasUnicode "Prod" "PROD"
  = GoStrings.EqualFold EqualFold_hasUnicode "Prod" "PROD".
Proof.
  apply (ToLower_is_redundant_on_ascii Map_unicode_ToLower EqualFold_hasUnicode
           "Prod" "PROD"); reflexivity.
Defined.

(** The listing of the fixture, reordered and with a repetition. *)
Lemma hasCluster_same_names_witness :
  findTrace_hasCluster Map_unicode_ToLower EqualFold_hasUnicode
    (srv (inr []) (inr full)) "PROD"
  = findTrace_hasCluster Map_unicode_ToLower EqualFold_hasUnicode
      {| spanReader := reader (inr []) (inr full);
         clusterList := {| List := ["Prod"; "staging"; "Prod"] |} |} "PROD".
Proof.
  apply (hasCluster_same_names Map_unicode_ToLower EqualFold_hasUnicode
           time_Parse).
  intros known. cbn [srv clusterList List].
  rewrite !elem_of_cons, !elem_of_nil. tauto.
Defined.

(** The route on the concrete server. *)
Example route_unknown_cluster :
  let x := RouteFixture.handle (inr [with_logs]) (inr full)
             (query "nowhere" "pods" "" "") in
  Status x = Some 404%Z
  /\ Text x = ["cluster nowhere not supported now"]
  /\ Aborted x = true
  /\ Counted x = [(t_10_05, Some "UnknownCluster")].
Proof. repeat split. Qed.

Example route_ambiguous :
  let x := RouteFixture.handle (inr [with_logs; other]) (inr full)
             (query "prod" "pods" "" "") in
  Status x = Some 500%Z
  /\ Text x = ["trace ids match query length is 2, not 1"].
Proof. repeat split. Qed.

Example route_store_failure :
  let x := RouteFixture.handle (inr [shallow]) (inl unavailable)
             (query "prod" "pods" "" "") in
  Status x = Some 500%Z
  /\ Text x = ["failed to find trace ids store unavailable"]
  /\ length (calls (after x)) = 2%nat.
Proof. repeat split. Qed.

Example route_success :
  let x := RouteFixture.handle (inr [with_logs]) (inl unavailable)
             (query "prod" "pods" "" "audit") in
  Status x = Some 200%Z /\ Text x = [] /\ Aborted x = false
  /\ Counted x = [(t_10_05, None)].
Proof. repeat split. Qed.
